(** * License console: normalisation, entitlement evaluation and status store

    A shallow embedding of the decision logic of the offline license console
    (frontend/src/context/LicenseContext.jsx, the feature gating demo
    component, and frontend/src/api/httpClient.js) together with the part of
    the JavaScript semantics these functions rely on: truthiness, [typeof],
    property reads through the prototype chain, the [in] operator, string
    conversion in template literals and exceptions. *)

From Stdlib Require Import Bool List String Ascii Arith ZArith Lia.
From Stdlib Require Import Floats.SpecFloat.
From Stdlib Require Import DecimalString.
Import ListNotations.
Open Scope string_scope.

Set Implicit Arguments.
Set Warnings "-register-all".

(* ================================================================= *)
(** ** JavaScript values *)

(** What [JSON.parse] can produce.  Every object and array the program
    handles comes from a parsed response body or from the literals [{}] and
    [[]], so the members of a container are always of this type.  Numbers are
    IEEE 754 doubles.  A string is the sequence of its code units, here
    limited to the 256 characters of [ascii].  An object is the list of its
    own properties; a read takes the first binding of a key. *)
Inductive Json : Type :=
| JNull
| JBool (b : bool)
| JNum (x : spec_float)
| JStr (s : string)
| JArr (elems : list Json)
| JObj (props : list (string * Json)).

(** The built-in prototype objects a JSON value inherits from. *)
Inductive Proto : Type :=
| ObjectPrototype
| ArrayPrototype
| StringPrototype
| NumberPrototype
| BooleanPrototype.

(** A value an expression of the program can evaluate to: [undefined], a JSON
    value, or one of the two kinds of value that a property read reaches
    through the prototype chain, a built-in prototype object
    ([features['__proto__']]) or a built-in method
    ([features['toString']]). *)
Inductive JsValue : Type :=
| JUndefined
| J (j : Json)
| JProto (p : Proto)
| JNative (owner : Proto) (name : string).

(** Thrown values: a [TypeError] of the language itself, the [Error] that
    [request] builds for a response that is not ok, and the rejection of
    [fetch] or [response.text()]. *)
Inductive JsError : Type :=
| TypeError (message : string)
| HttpError (status : nat) (data : Json)
| TransportError (message : string).

(** Completion of an expression: a value or a thrown error. *)
Inductive Completion (A : Type) : Type :=
| Normal (a : A)
| Throw (e : JsError).
Arguments Normal {A} a.
Arguments Throw {A} e.

Definition bind {A B : Type} (c : Completion A) (k : A -> Completion B)
  : Completion B :=
  match c with
  | Normal a => k a
  | Throw e => Throw e
  end.

Notation "x <- c ;; k" := (bind c (fun x => k))
  (at level 61, c at next level, right associativity).

(** The parts of the host that the program's own text does not fix: the
    decimal rendering of a double, the JSON parser, the properties of
    built-in function objects, and the source text a function converts to.
    [function_member owner name key] is [None] when the function
    [owner.name] has no property [key], and otherwise the completion of
    reading it. *)
Class Host : Type := {
  Number_toString : spec_float -> string;
  JSON_parse : string -> option Json;
  function_member : Proto -> string -> string -> option (Completion JsValue);
  function_source : Proto -> string -> string
}.

Module JS.

Definition null : JsValue := J JNull.
Definition str (s : string) : JsValue := J (JStr s).

(** [ToBoolean]. *)
Definition is_zero_or_nan (x : spec_float) : bool :=
  match x with
  | S754_zero _ => true
  | S754_nan => true
  | _ => false
  end.

Definition ToBoolean (v : JsValue) : bool :=
  match v with
  | JUndefined => false
  | J JNull => false
  | J (JBool b) => b
  | J (JNum x) => negb (is_zero_or_nan x)
  | J (JStr s) => negb (s =? "")
  | J (JArr _) => true
  | J (JObj _) => true
  | JProto _ => true
  | JNative _ _ => true
  end.

Definition typeof (v : JsValue) : string :=
  match v with
  | JUndefined => "undefined"
  | J JNull => "object"
  | J (JBool _) => "boolean"
  | J (JNum _) => "number"
  | J (JStr _) => "string"
  | J (JArr _) => "object"
  | J (JObj _) => "object"
  | JProto _ => "object"
  | JNative _ _ => "function"
  end.

Definition is_undefined (v : JsValue) : bool :=
  match v with JUndefined => true | _ => false end.

Definition is_null (v : JsValue) : bool :=
  match v with J JNull => true | _ => false end.

(** [a ?? b] *)
Definition nullish (a b : JsValue) : JsValue :=
  if is_undefined a || is_null a then b else a.

(** [a || b] *)
Definition or (a b : JsValue) : JsValue :=
  if ToBoolean a then a else b.

(** [Array.isArray]; [Array.prototype] is itself an array. *)
Definition Array_isArray (v : JsValue) : bool :=
  match v with
  | J (JArr _) => true
  | JProto ArrayPrototype => true
  | _ => false
  end.

(** *** Own properties *)

Fixpoint lookup (props : list (string * Json)) (key : string)
  : option Json :=
  match props with
  | [] => None
  | (k, v) :: rest => if k =? key then Some v else lookup rest key
  end.

Definition digit_of (c : ascii) : option nat :=
  let n := nat_of_ascii c in
  if ((48 <=? n) && (n <=? 57))%nat then Some (n - 48)%nat else None.

Fixpoint parse_digits (s : string) (acc : nat) : option nat :=
  match s with
  | EmptyString => Some acc
  | String c rest =>
      match digit_of c with
      | Some d => parse_digits rest (10 * acc + d)%nat
      | None => None
      end
  end.

(** A key is an index when it is the canonical decimal numeral of a
    natural number: digits only, no leading zero. *)
Definition array_index (key : string) : option nat :=
  match key with
  | EmptyString => None
  | String c rest =>
      if (c =? "0")%char
      then (if rest =? "" then Some 0 else None)
      else parse_digits key 0
  end.

Definition number_of_nat (n : nat) : spec_float :=
  match n with
  | O => S754_zero false
  | S _ => S754_finite false (Pos.of_nat n) 0
  end.

(** String-keyed methods of the built-in prototypes (ECMAScript 2023 with
    Annex B); the accessor [__proto__] of [Object.prototype] is treated
    in [get]. *)
Definition methods (p : Proto) : list string :=
  match p with
  | ObjectPrototype =>
      ["constructor"; "__defineGetter__"; "__defineSetter__";
       "hasOwnProperty"; "__lookupGetter__"; "__lookupSetter__";
       "isPrototypeOf"; "propertyIsEnumerable"; "toString"; "valueOf";
       "toLocaleString"]
  | ArrayPrototype =>
      ["constructor"; "at"; "concat"; "copyWithin"; "fill"; "find";
       "findIndex"; "findLast"; "findLastIndex"; "lastIndexOf"; "pop";
       "push"; "reverse"; "shift"; "unshift"; "slice"; "sort"; "splice";
       "includes"; "indexOf"; "join"; "keys"; "entries"; "values";
       "forEach"; "filter"; "flat"; "flatMap"; "map"; "every"; "some";
       "reduce"; "reduceRight"; "toLocaleString"; "toString";
       "toReversed"; "toSorted"; "toSpliced"; "with"]
  | StringPrototype =>
      ["constructor"; "anchor"; "at"; "big"; "blink"; "bold"; "charAt";
       "charCodeAt"; "codePointAt"; "concat"; "endsWith"; "fontcolor";
       "fontsize"; "fixed"; "includes"; "indexOf"; "italics";
       "lastIndexOf"; "link"; "localeCompare"; "match"; "matchAll";
       "normalize"; "padEnd"; "padStart"; "repeat"; "replace";
       "replaceAll"; "search"; "slice"; "small"; "split"; "strike";
       "sub"; "substr"; "substring"; "sup"; "startsWith"; "toString";
       "trim"; "trimStart"; "trimLeft"; "trimEnd"; "trimRight";
       "toLocaleLowerCase"; "toLocaleUpperCase"; "toLowerCase";
       "toUpperCase"; "valueOf"]
  | NumberPrototype =>
      ["constructor"; "toExponential"; "toFixed"; "toPrecision";
       "toString"; "valueOf"; "toLocaleString"]
  | BooleanPrototype =>
      ["constructor"; "toString"; "valueOf"]
  end.

Definition has_method (key : string) (p : Proto) : bool :=
  existsb (String.eqb key) (methods p).

(** The own property [key] of the object [v] converts to, if any. *)
Definition own_property (v : JsValue) (key : string) : option JsValue :=
  match v with
  | J (JStr s) =>
      if key =? "length" then Some (J (JNum (number_of_nat (String.length s))))
      else match array_index key with
           | Some i =>
               match String.get i s with
               | Some c => Some (J (JStr (String c EmptyString)))
               | None => None
               end
           | None => None
           end
  | J (JArr elems) =>
      if key =? "length" then Some (J (JNum (number_of_nat (List.length elems))))
      else match array_index key with
           | Some i => option_map J (nth_error elems i)
           | None => None
           end
  | J (JObj props) => option_map J (lookup props key)
  | JProto p =>
      if has_method key p then Some (JNative p key)
      else match p with
           | ArrayPrototype | StringPrototype =>
               if key =? "length" then Some (J (JNum (S754_zero false)))
               else None
           | _ => None
           end
  | _ => None
  end.

(** *** The prototype chain *)

(** The prototypes [v] inherits from, nearest first. *)
Definition chain (v : JsValue) : list Proto :=
  match v with
  | J (JBool _) => [BooleanPrototype; ObjectPrototype]
  | J (JNum _) => [NumberPrototype; ObjectPrototype]
  | J (JStr _) => [StringPrototype; ObjectPrototype]
  | J (JArr _) => [ArrayPrototype; ObjectPrototype]
  | J (JObj _) => [ObjectPrototype]
  | JProto ObjectPrototype => []
  | JProto _ => [ObjectPrototype]
  | _ => []
  end.

(** What the getter of [__proto__] returns for [v]. *)
Definition prototype_of (v : JsValue) : JsValue :=
  match chain v with
  | p :: _ => JProto p
  | [] => null
  end.

(** A property found on the chain rather than on the value itself. *)
Definition inherited (v : JsValue) (key : string) : option JsValue :=
  match find (has_method key) (chain v) with
  | Some p => Some (JNative p key)
  | None => if key =? "__proto__" then Some (prototype_of v) else None
  end.

Definition member (v : JsValue) (key : string) : option JsValue :=
  match own_property v key with
  | Some x => Some x
  | None => inherited v key
  end.

Section WithHost.
Context {host : Host}.

(** [v[key]] and [v.key]: reading from [undefined] or [null] throws. *)
Definition get (v : JsValue) (key : string) : Completion JsValue :=
  match v with
  | JUndefined =>
      Throw (TypeError "Cannot read properties of undefined")
  | J JNull =>
      Throw (TypeError "Cannot read properties of null")
  | JNative owner name =>
      match function_member owner name key with
      | Some c => c
      | None => Normal JUndefined
      end
  | _ =>
      match member v key with
      | Some x => Normal x
      | None => Normal JUndefined
      end
  end.

(** [key in v]: throws unless [v] is an object. *)
Definition has_property (key : string) (v : JsValue) : Completion bool :=
  match v with
  | J (JArr _) | J (JObj _) | JProto _ =>
      Normal (match member v key with Some _ => true | None => false end)
  | JNative owner name =>
      Normal (match function_member owner name key with
              | Some _ => true
              | None => false
              end)
  | _ =>
      Throw (TypeError "Cannot use 'in' operator to search for a key in a primitive")
  end.

(** [ToString], as a template literal applies it.  An array joins its
    elements with a comma, [null] elements giving the empty string.  An
    ordinary object answers through [toString]; an own property of that
    name hides [Object.prototype.toString], and being a JSON value it is
    not callable, after which [valueOf] cannot produce a primitive
    either and the conversion throws. *)
Fixpoint json_to_string (j : Json) : Completion string :=
  match j with
  | JNull => Normal "null"
  | JBool true => Normal "true"
  | JBool false => Normal "false"
  | JNum x => Normal (Number_toString x)
  | JStr s => Normal s
  | JArr elems =>
      (fix join (l : list Json) : Completion string :=
         match l with
         | [] => Normal ""
         | x :: rest =>
             s <- match x with
                  | JNull => Normal ""
                  | _ => json_to_string x
                  end ;;
             match rest with
             | [] => Normal s
             | _ :: _ => r <- join rest ;; Normal (s ++ "," ++ r)
             end
         end) elems
  | JObj props =>
      match lookup props "toString" with
      | Some _ => Throw (TypeError "Cannot convert object to primitive value")
      | None => Normal "[object Object]"
      end
  end.

Definition ToString (v : JsValue) : Completion string :=
  match v with
  | JUndefined => Normal "undefined"
  | J j => json_to_string j
  | JProto ObjectPrototype => Normal "[object Object]"
  | JProto ArrayPrototype => Normal ""
  | JProto StringPrototype => Normal ""
  | JProto NumberPrototype => Normal "0"
  | JProto BooleanPrototype => Normal "false"
  | JNative owner name => Normal (function_source owner name)
  end.

End WithHost.

End JS.


(* ================================================================= *)
(** ** frontend/src/api/httpClient.js and the license API module *)

Module HttpClient.

(** What [fetch] resolves to; reading the body can itself reject. *)
Record Response : Type := {
  ok : bool;
  status : nat;
  text : Completion string
}.

(** The network as the client sees it: method and URL give the awaited
    outcome of [fetch(url, options)]. *)
Definition Fetch : Type := string -> string -> Completion Response.

Section WithHost.
Context {host : Host}.

(** The headers and the request body are passed on to [fetch] and play no
    part in what [request] returns. *)
Definition request (fetch : Fetch) (path method : string)
  : Completion Json :=
  let url := path in
  response <- fetch method url ;;
  text <- text response ;;
  let data :=
    if negb (text =? "")
    then match JSON_parse text with
         | Some parsed => parsed
         | None => JStr text
         end
    else JNull in
  if negb (ok response)
  then Throw (HttpError (status response) data)
  else Normal data.

Definition get (fetch : Fetch) (path : string) : Completion Json :=
  request fetch path "GET".

End WithHost.

End HttpClient.

Module LicenseApi.

Definition fetchLicenseStatus {host : Host} (fetch : HttpClient.Fetch)
  : Completion Json :=
  HttpClient.get fetch "/api/license/status/".

End LicenseApi.

(* ================================================================= *)
(** ** frontend/src/context/LicenseContext.jsx *)

Record LicenseSnapshot : Type := {
  status : JsValue;
  statusMessage : JsValue;
  isValid : bool;
  licenseId : JsValue;
  customerName : JsValue;
  editionCode : JsValue;
  editionName : JsValue;
  licenseType : JsValue;
  validFrom : JsValue;
  validUntil : JsValue;
  features : JsValue;
  limits : JsValue;
  warnings : JsValue;
  raw : JsValue
}.

(** The three pieces of state of [LicenseProvider]. *)
Record Store : Type := {
  license : option LicenseSnapshot;
  loading : bool;
  error : option JsError
}.

(** What [loadStatus] does to the outside, in the order it does it. *)
Inductive Effect : Type :=
| SetLicense (l : option LicenseSnapshot)
| SetLoading (b : bool)
| SetError (e : option JsError)
| ConsoleError (message : string) (e : JsError).

Definition apply_effect (s : Store) (e : Effect) : Store :=
  match e with
  | SetLicense l => {| license := l; loading := loading s; error := error s |}
  | SetLoading b => {| license := license s; loading := b; error := error s |}
  | SetError x => {| license := license s; loading := loading s; error := x |}
  | ConsoleError _ _ => s
  end.

(** An effectful computation: the effects performed and how it completed. *)
Definition Prog (A : Type) : Type := (list Effect * Completion A)%type.

Definition perform (e : Effect) : Prog unit := ([e], Normal tt).

Definition await {A : Type} (c : Completion A) : Prog A := ([], c).

Definition pbind {A B : Type} (p : Prog A) (k : A -> Prog B) : Prog B :=
  match p with
  | (done, Normal a) => let (more, r) := k a in ((done ++ more)%list, r)
  | (done, Throw e) => (done, Throw e)
  end.

Notation "x <~ p ;; k" := (pbind p (fun x => k))
  (at level 61, p at next level, right associativity).
Notation "p ;;; k" := (pbind p (fun _ => k))
  (at level 61, right associativity).

(** [try { body } catch (err) { handler } finally { finalizer }] *)
Definition try_catch_finally {A : Type}
  (body : Prog A) (handler : JsError -> Prog A) (finalizer : Prog unit)
  : Prog A :=
  let caught :=
    match body with
    | (done, Normal a) => (done, Normal a)
    | (done, Throw err) => let (more, r) := handler err in ((done ++ more)%list, r)
    end in
  let (done, r) := caught in
  match finalizer with
  | (last, Normal _) => ((done ++ last)%list, r)
  | (last, Throw e) => ((done ++ last)%list, Throw e)
  end.

Definition effects {A : Type} (p : Prog A) : list Effect := fst p.
Definition completion {A : Type} (p : Prog A) : Completion A := snd p.

(** The store once the effects of [p] have been applied to [s]. *)
Definition run {A : Type} (s : Store) (p : Prog A) : Store :=
  fold_left apply_effect (effects p) s.

Definition setLicense l := perform (SetLicense l).
Definition setLoading b := perform (SetLoading b).
Definition setError e := perform (SetError e).
Definition console_error message e := perform (ConsoleError message e).

Section LicenseContext.
Context {host : Host}.

Definition normalizeLicenseStatus (raw : JsValue)
  : Completion (option LicenseSnapshot) :=
  if negb (JS.ToBoolean raw) then Normal None
  else
    status <- JS.get raw "status" ;;
    status_message <- JS.get raw "status_message" ;;
    is_valid <- JS.get raw "is_valid" ;;
    license_id <- JS.get raw "license_id" ;;
    customer_name <- JS.get raw "customer_name" ;;
    edition_code <- JS.get raw "edition_code" ;;
    edition_name <- JS.get raw "edition_name" ;;
    license_type <- JS.get raw "license_type" ;;
    valid_from <- JS.get raw "valid_from" ;;
    valid_until <- JS.get raw "valid_until" ;;
    features <- JS.get raw "features" ;;
    limits <- JS.get raw "limits" ;;
    warnings <- JS.get raw "warnings" ;;
    warnings' <- (if JS.Array_isArray warnings
                  then JS.get raw "warnings"
                  else Normal (J (JArr []))) ;;
    Normal (Some {|
      status := JS.nullish status (JS.str "unknown");
      statusMessage := JS.nullish status_message (JS.str "");
      isValid := JS.ToBoolean is_valid;
      licenseId := JS.nullish license_id JS.null;
      customerName := JS.nullish customer_name JS.null;
      editionCode := JS.nullish edition_code JS.null;
      editionName := JS.nullish edition_name JS.null;
      licenseType := JS.nullish license_type JS.null;
      validFrom := JS.nullish valid_from JS.null;
      validUntil := JS.nullish valid_until JS.null;
      features := JS.or features (J (JObj []));
      limits := JS.or limits (J (JObj []));
      warnings := warnings';
      raw := raw
    |}).

(** [fetchLicenseStatus] is the imported collaborator; calling it gives the
    outcome that [await] observes. *)
Definition loadStatus (fetchLicenseStatus : unit -> Completion Json)
  : Prog unit :=
  setLoading true ;;;
  setError None ;;;
  try_catch_finally
    (raw <~ await (fetchLicenseStatus tt) ;;
     normalized <~ await (normalizeLicenseStatus (J raw)) ;;
     setLicense normalized)
    (fun err =>
       console_error "Failed to fetch license status" err ;;;
       setError (Some err) ;;;
       setLicense None)
    (setLoading false).

(** [canUse] closes over the [license] state; [featureKey] is a string, or
    [None] for an omitted or [null] argument. *)
Definition canUse (license : option LicenseSnapshot)
  (featureKey : option string) : Completion bool :=
  match license with
  | None => Normal false
  | Some license =>
      if negb (isValid license) then Normal false
      else
        match featureKey with
        | None => Normal true
        | Some featureKey =>
            if featureKey =? "" then Normal true
            else
              let features := JS.or (features license) (J (JObj [])) in
              feature <- JS.get features featureKey ;;
              if JS.is_undefined feature then Normal false
              else if JS.typeof feature =? "boolean"
              then Normal (JS.ToBoolean feature) (* [feature] itself *)
              else if (JS.typeof feature =? "object")
                      && negb (JS.is_null feature)
              then
                present <- JS.has_property "enabled" feature ;;
                if (present : bool)
                then enabled <- JS.get feature "enabled" ;;
                     Normal (JS.ToBoolean enabled)
                else Normal true
              else Normal false
        end
  end.

(** The refresh operation offered to consumers, wired to the HTTP client. *)
Definition refreshLicenseStatus (fetch : HttpClient.Fetch) : Prog unit :=
  loadStatus (fun _ => LicenseApi.fetchLicenseStatus fetch).

End LicenseContext.

(* ================================================================= *)
(** ** The feature gating demo component *)

Module FeatureGatingDemo.

(** [disabledReason] closes over the [license] read from the context;
    [None] is the [null] it returns for an allowed feature. *)
Definition disabledReason {host : Host} (license : option LicenseSnapshot)
  (featureKey : string) (allowed : bool) : Completion (option string) :=
  if allowed then Normal None
  else
    match license with
    | None => Normal (Some "No license installed")
    | Some license =>
        if negb (isValid license)
        then s <- JS.ToString (status license) ;;
             Normal (Some ("License status: " ++ s))
        else Normal (Some ("Feature '" ++ featureKey
                           ++ "' is not granted in this license"))
    end.

End FeatureGatingDemo.

(* ================================================================= *)
(** ** Refreshes that overlap *)

(** [loadStatus] is an async function: it runs up to the [await], is
    suspended while the fetch is pending, and runs its remainder in one go
    when the fetch has settled.  Another refresh may begin or settle in
    between. *)
Section Phases.
Context {host : Host}.

(** The steps before the [await]. *)
Definition loadStatus_begin : Prog unit :=
  setLoading true ;;;
  setError None.

(** The steps from the [await] on, the fetch having settled with
    [outcome]. *)
Definition loadStatus_settle (outcome : Completion Json) : Prog unit :=
  try_catch_finally
    (raw <~ await outcome ;;
     normalized <~ await (normalizeLicenseStatus (J raw)) ;;
     setLicense normalized)
    (fun err =>
       console_error "Failed to fetch license status" err ;;;
       setError (Some err) ;;;
       setLicense None)
    (setLoading false).

(** A phase of some refresh in progress. *)
Inductive Phase : Type :=
| Begin
| Settle (outcome : Completion Json).

Definition run_phase (s : Store) (phase : Phase) : Store :=
  match phase with
  | Begin => run s loadStatus_begin
  | Settle outcome => run s (loadStatus_settle outcome)
  end.

(** The store after the phases of one or several refreshes, in the order
    in which they ran. *)
Definition run_phases (s : Store) (phases : list Phase) : Store :=
  fold_left run_phase phases s.

End Phases.

(* ================================================================= *)
(** ** What the components render *)

(** [error.message]: the message an error was built with; [request] builds
    its error from the template [HTTP ${response.status}]. *)
Definition error_message (e : JsError) : string :=
  match e with
  | TypeError message => message
  | HttpError status _ => "HTTP " ++ NilEmpty.string_of_uint (Nat.to_uint status)
  | TransportError message => message
  end.

(** The feature gating demo: the rows of buttons and the two header
    lines.  Styling is left out. *)
Module GatingDemoView.

(** What a row shows: the reason under the description, if any, and the
    button.  [on_click] is the text the click handler alerts, [None] when
    no handler is attached. *)
Record ButtonRow : Type := {
  label : string;
  description : string;
  feature_key : string;
  reason_shown : option string;
  button_disabled : bool;
  on_click : option string;
  button_text : string
}.

Definition handleDummyClick (actionLabel : string) : string :=
  "(Demo) This would trigger: " ++ actionLabel.

(** [{disabled && disabledReason && (...)}] shows the reason when the row
    is disabled and the reason is a non-empty string. *)
Definition FeatureButtonRow (label description featureKey : string)
  (allowed : bool) (disabledReason : option string) (onClick : string)
  : ButtonRow :=
  let disabled := negb allowed in
  {| label := label;
     description := description;
     feature_key := featureKey;
     reason_shown :=
       if disabled
       then match disabledReason with
            | Some reason => if negb (reason =? "") then Some reason else None
            | None => None
            end
       else None;
     button_disabled := disabled;
     on_click := if disabled then None else Some onClick;
     button_text := if disabled then "Not available" else "Use feature" |}.

(** What the component function returns: the values of the two header
    lines, the rows, and the features dumped in the closing [details]
    element ([None] when the element is absent). *)
Record View : Type := {
  edition : JsValue;
  license_status : JsValue;
  rows : list ButtonRow;
  raw_features : option JsValue
}.

Section WithHost.
Context {host : Host}.

(** The component function, [license] being what [useLicense] hands it. *)
Definition FeatureGatingDemo (license : option LicenseSnapshot)
  : Completion View :=
  hasPipelineExecution <- canUse license (Some "pipeline_execution") ;;
  hasAdvancedExport <- canUse license (Some "advanced_export") ;;
  hasCustomConnectors <- canUse license (Some "custom_connectors") ;;
  let disabledReason := FeatureGatingDemo.disabledReason license in
  let edition :=
    match license with
    | Some license =>
        JS.or (JS.or (editionName license) (editionCode license))
              (JS.str "—")
    | None => JS.str "—"
    end in
  let license_status :=
    match license with
    | Some license => status license
    | None => JS.str "no_license"
    end in
  reason1 <- disabledReason "pipeline_execution" hasPipelineExecution ;;
  reason2 <- disabledReason "advanced_export" hasAdvancedExport ;;
  reason3 <- disabledReason "custom_connectors" hasCustomConnectors ;;
  Normal {|
    edition := edition;
    license_status := license_status;
    rows :=
      [FeatureButtonRow "Run pipeline" "Execute data pipelines."
         "pipeline_execution" hasPipelineExecution reason1
         (handleDummyClick "Run pipeline");
       FeatureButtonRow "Advanced export" "Use advanced export features."
         "advanced_export" hasAdvancedExport reason2
         (handleDummyClick "Advanced export");
       FeatureButtonRow "Custom connectors"
         "Configure and run custom connectors."
         "custom_connectors" hasCustomConnectors reason3
         (handleDummyClick "Custom connectors")];
    raw_features :=
      match license with
      | Some license =>
          if JS.ToBoolean (features license)
          then Some (features license)
          else None
      | None => None
      end
  |}.

End WithHost.

End GatingDemoView.

(** The status panel that reads the license context: which of its
    sections the component function returns, and the children it hands to
    React in the slots of the details section.  What React displays for a
    child is not part of the model, nor is the text of the JSON dump that
    closes the section. *)
Module ContextStatusPanel.

(** [warnings_box] holds the warnings listed in the box, one item each;
    [None] when [license.warnings && license.warnings.length > 0 && (...)]
    stops before the box. *)
Record Details : Type := {
  badge : JsValue;
  badge_valid : bool;
  customer : JsValue;
  edition : JsValue;
  type : JsValue;
  license_id : JsValue;
  valid_from : JsValue;
  valid_until : JsValue;
  warnings_box : option (list Json)
}.

(** The last section.  The box of warnings is evaluated for the snapshots
    whose [warnings] is a JSON array, which is all the normalizer builds;
    for any other value the comparison [length > 0] and the call of [map]
    are outside the model. *)
Inductive DetailsSlot : Type :=
| NoDetails
| DetailsElement (details : Details)
| OutsideModel.

Record View : Type := {
  loading_element : bool;
  error_element : option string;
  no_information_element : bool;
  details_element : DetailsSlot
}.

Definition dash : JsValue := JS.str "—".

Definition LicenseStatusPanel (store : Store) : View :=
  let has_error := match error store with Some _ => true | None => false end in
  let has_license :=
    match license store with Some _ => true | None => false end in
  {| loading_element := loading store;
     error_element := option_map error_message (error store);
     no_information_element :=
       negb (loading store) && negb has_error && negb has_license;
     details_element :=
       if negb (loading store) && negb has_error
       then match license store with
            | Some license =>
                match warnings license with
                | J (JArr items) =>
                    DetailsElement
                      {| badge := status license;
                         badge_valid := isValid license;
                         customer := JS.or (customerName license) dash;
                         edition :=
                           JS.or (JS.or (editionName license)
                                        (editionCode license)) dash;
                         type := JS.or (licenseType license) dash;
                         license_id := JS.or (licenseId license) dash;
                         valid_from := JS.or (validFrom license) dash;
                         valid_until := JS.or (validUntil license) dash;
                         warnings_box :=
                           if (0 <? List.length items)%nat
                           then Some items
                           else None |}
                | _ => OutsideModel
                end
            | None => NoDetails
            end
       else NoDetails |}.

End ContextStatusPanel.

(** The status panel that fetches for itself and keeps the raw document.
    Its state is threaded through the steps of [loadStatus]; [isMounted]
    is the flag as the code after the [await] finds it. *)
Module StandaloneStatusPanel.

Record State : Type := {
  status : Json;
  loading : bool;
  error : option JsError
}.

Definition initial : State :=
  {| status := JNull; loading := false; error := None |}.

Definition Step (A : Type) : Type := State -> State * Completion A.

Definition ret {A : Type} (a : A) : Step A := fun s => (s, Normal a).

Definition then_ {A B : Type} (m : Step A) (k : A -> Step B) : Step B :=
  fun s =>
    match m s with
    | (s', Normal a) => k a s'
    | (s', Throw e) => (s', Throw e)
    end.

Definition await {A : Type} (c : Completion A) : Step A := fun s => (s, c).

Definition when (condition : bool) (m : Step unit) : Step unit :=
  if condition then m else ret tt.

Definition setStatus (data : Json) : Step unit :=
  fun s => ({| status := data; loading := loading s; error := error s |},
            Normal tt).

Definition setLoading (b : bool) : Step unit :=
  fun s => ({| status := status s; loading := b; error := error s |},
            Normal tt).

Definition setError (e : option JsError) : Step unit :=
  fun s => ({| status := status s; loading := loading s; error := e |},
            Normal tt).

(** [try { body } catch (err) { handler } finally { finalizer }] *)
Definition try_catch_finally {A : Type}
  (body : Step A) (handler : JsError -> Step A) (finalizer : Step unit)
  : Step A :=
  fun s =>
    let (s1, r1) :=
      match body s with
      | (s', Normal a) => (s', Normal a)
      | (s', Throw err) => handler err s'
      end in
    match finalizer s1 with
    | (s2, Normal _) => (s2, r1)
    | (s2, Throw e) => (s2, Throw e)
    end.

Definition loadStatus (isMounted : bool)
  (fetchLicenseStatus : unit -> Completion Json) : Step unit :=
  then_ (setLoading true) (fun _ =>
  then_ (setError None) (fun _ =>
  try_catch_finally
    (then_ (await (fetchLicenseStatus tt)) (fun data =>
     when isMounted (setStatus data)))
    (fun err => when isMounted (setError (Some err)))
    (when isMounted (setLoading false)))).

(** What the child
    [{!loading && !error && status && (<pre>...</pre>)}] evaluates to: the
    [pre] element that dumps the status, or the value at which the chain
    of [&&] stopped ([false], or the status itself when it is falsy). *)
Inductive DataSlot : Type :=
| StatusDump (status : Json)
| Stopped (value : Json).

(** What the component function returns; what React displays for a child
    is not part of the model. *)
Record View : Type := {
  loading_element : bool;
  error_element : option string;
  data_slot : DataSlot;
  no_data_element : bool
}.

Definition LicenseStatusPanel (s : State) : View :=
  let has_error := match error s with Some _ => true | None => false end in
  let has_status := JS.ToBoolean (J (status s)) in
  {| loading_element := loading s;
     error_element := option_map error_message (error s);
     data_slot :=
       if loading s then Stopped (JBool false)
       else if has_error then Stopped (JBool false)
       else if has_status then StatusDump (status s)
       else Stopped (status s);
     no_data_element :=
       negb (loading s) && negb has_error && negb has_status |}.

End StandaloneStatusPanel.

(** A snapshot with another document under [raw]. *)
Definition with_raw (snap : LicenseSnapshot) (document : JsValue)
  : LicenseSnapshot := {|
  status := status snap;
  statusMessage := statusMessage snap;
  isValid := isValid snap;
  licenseId := licenseId snap;
  customerName := customerName snap;
  editionCode := editionCode snap;
  editionName := editionName snap;
  licenseType := licenseType snap;
  validFrom := validFrom snap;
  validUntil := validUntil snap;
  features := features snap;
  limits := limits snap;
  warnings := warnings snap;
  raw := document
|}.

(** The names of the fields [normalizeLicenseStatus] reads. *)
Definition known_fields : list string :=
  ["status"; "status_message"; "is_valid"; "license_id"; "customer_name";
   "edition_code"; "edition_name"; "license_type"; "valid_from";
   "valid_until"; "features"; "limits"; "warnings"].

(* ================================================================= *)
(** ** The data model of the specification, and sample data *)

(** The own property [key] of a raw document: only a JSON object has
    fields. *)
Definition own_field (raw : Json) (key : string) : option Json :=
  match raw with
  | JObj props => JS.lookup props key
  | _ => None
  end.

(** The value a read of an own field gives: [undefined] when absent. *)
Definition field_value (field : option Json) : JsValue :=
  match field with
  | Some v => J v
  | None => JUndefined
  end.

(** How the specification resolves the feature flag found at a key of the
    [features] mapping ([None]: the key is not present).  An array is an
    object without an [enabled] field. *)
Definition flag_resolution (flag : option Json) : bool :=
  match flag with
  | None => false
  | Some (JBool b) => b
  | Some (JObj descriptor) =>
      match JS.lookup descriptor "enabled" with
      | Some enabled => JS.ToBoolean (J enabled)
      | None => true
      end
  | Some (JArr _) => true
  | Some _ => false
  end.



(** What the operators of [normalizeLicenseStatus] do with a field:
    [??] replaces only an absent or [null] value, [||] any falsy one, and
    the [Array.isArray] test anything but an array. *)
Definition unless_nullish (field : option Json) (default : JsValue)
  : JsValue :=
  match field with
  | None => default
  | Some JNull => default
  | Some v => J v
  end.

Definition unless_falsy (field : option Json) (default : JsValue)
  : JsValue :=
  match field with
  | None => default
  | Some v => if JS.ToBoolean (J v) then J v else default
  end.

Definition unless_not_array (field : option Json) : JsValue :=
  match field with
  | Some (JArr elems) => J (JArr elems)
  | _ => J (JArr [])
  end.

Definition truthy_field (field : option Json) : bool :=
  match field with
  | None => false
  | Some v => JS.ToBoolean (J v)
  end.

(** The snapshot of a raw document, field by field, in terms of the own
    fields of the document. *)
Definition snapshot_of (doc : Json) : LicenseSnapshot := {|
  status := unless_nullish (own_field doc "status") (JS.str "unknown");
  statusMessage := unless_nullish (own_field doc "status_message") (JS.str "");
  isValid := truthy_field (own_field doc "is_valid");
  licenseId := unless_nullish (own_field doc "license_id") JS.null;
  customerName := unless_nullish (own_field doc "customer_name") JS.null;
  editionCode := unless_nullish (own_field doc "edition_code") JS.null;
  editionName := unless_nullish (own_field doc "edition_name") JS.null;
  licenseType := unless_nullish (own_field doc "license_type") JS.null;
  validFrom := unless_nullish (own_field doc "valid_from") JS.null;
  validUntil := unless_nullish (own_field doc "valid_until") JS.null;
  features := unless_falsy (own_field doc "features") (J (JObj []));
  limits := unless_falsy (own_field doc "limits") (J (JObj []));
  warnings := unless_not_array (own_field doc "warnings");
  raw := J doc
|}.

(** A key that names neither an index, nor [length], nor anything a JSON
    value inherits: reading it finds an own field or nothing. *)
Definition plain_key (key : string) : bool :=
  negb (key =? "length")
  && negb (key =? "__proto__")
  && match JS.array_index key with None => true | Some _ => false end
  && forallb (fun p => negb (JS.has_method key p))
       [ObjectPrototype; ArrayPrototype; StringPrototype; NumberPrototype;
        BooleanPrototype].

(** A host to evaluate examples with.  None of the examples renders a
    number, parses a body other than a literal, or reads a property of a
    function. *)
Definition sample_host : Host := {|
  Number_toString := fun _ => "0";
  JSON_parse := fun body =>
    if body =? "null" then Some JNull
    else if body =? "true" then Some (JBool true)
    else if body =? "false" then Some (JBool false)
    else if body =? "{}" then Some (JObj [])
    else None;
  function_member := fun _ _ _ => None;
  function_source := fun _ _ => "function () { [native code] }"
|}.

(** A snapshot with the given validity, status and features, every other
    field at its default. *)
Definition sample_snapshot (valid : bool) (st : string) (feats : Json)
  : LicenseSnapshot := {|
  status := JS.str st;
  statusMessage := JS.str "";
  isValid := valid;
  licenseId := JS.null;
  customerName := JS.null;
  editionCode := JS.null;
  editionName := JS.null;
  licenseType := JS.null;
  validFrom := JS.null;
  validUntil := JS.null;
  features := J feats;
  limits := J (JObj []);
  warnings := J (JArr []);
  raw := J (JObj [("status", JStr st); ("is_valid", JBool valid);
                  ("features", feats)])
|}.

(** The feature table of the variant-resolution scenario. *)
Definition sample_features : list (string * Json) :=
  [("a", JBool true); ("b", JBool false);
   ("c", JObj [("enabled", JBool true)]);
   ("d", JObj [("enabled", JBool false)]);
   ("e", JObj [("note", JStr "x")])].

(** The document of the end-to-end scenario. *)
Definition active_document : Json :=
  JObj [("status", JStr "active"); ("is_valid", JBool true);
        ("features", JObj [("pipeline_execution", JBool true)])].

(** A document whose fields have the wrong types. *)
Definition mistyped_document : Json :=
  JObj [("status", JBool true); ("status_message", JArr []);
        ("features", JStr "all"); ("limits", JArr [JNull]);
        ("warnings", JStr "soon")].

(** A network that answers every request with the same response. *)
Definition sample_fetch (ok : bool) (code : nat) (body : string)
  : HttpClient.Fetch :=
  fun _ _ => Normal {| HttpClient.ok := ok; HttpClient.status := code;
                       HttpClient.text := Normal body |}.

(** An invalid license whose status is an object that hides [toString]. *)
Definition unprintable_document : Json :=
  JObj [("status", JObj [("toString", JBool true)]);
        ("is_valid", JBool false)].

(** A valid license whose features are an array of descriptors. *)
Definition array_features_document : Json :=
  JObj [("is_valid", JBool true);
        ("features", JArr [JObj [("enabled", JBool true)]; JStr "x"])].

(** The store before the first refresh. *)
Definition empty_store : Store :=
  {| license := None; loading := false; error := None |}.

(* ================================================================= *)
(** ** Properties *)

Section Properties.
Context {host : Host}.

(** Breaks boolean conjunctions and negations among the hypotheses into
    equations on their atoms. *)
Ltac split_bools :=
  repeat match goal with
         | H : _ && _ = true |- _ => apply andb_prop in H; destruct H
         | H : negb _ = true |- _ => apply negb_true_iff in H
         end.

Ltac rewrite_false :=
  repeat match goal with
         | H : _ = false |- _ => rewrite H
         end.

(** *** Property reads *)

Lemma get_object (props : list (string * Json)) (key : string) :
  JS.get (J (JObj props)) key =
  Normal match JS.lookup props key with
         | Some v => J v
         | None =>
             match JS.inherited (J (JObj [])) key with
             | Some x => x
             | None => JUndefined
             end
         end.
Proof.
  unfold JS.get, JS.member, JS.own_property.
  destruct (JS.lookup props key); simpl; [reflexivity|].
  unfold JS.inherited; simpl.
  destruct (JS.has_method key ObjectPrototype); [reflexivity|].
  destruct (key =? "__proto__"); reflexivity.
Qed.

Lemma get_plain_key (raw : Json) (key : string) :
  plain_key key = true ->
  JS.ToBoolean (J raw) = true ->
  JS.get (J raw) key = Normal (field_value (own_field raw key)).
Proof.
  unfold plain_key, field_value. intros Hkey Hraw.
  cbn [forallb] in Hkey. split_bools.
  destruct (JS.array_index key) eqn:Hidx; [discriminate|].
  destruct raw; try discriminate;
    unfold JS.get, JS.member, JS.own_property, JS.inherited; simpl;
    rewrite_false; simpl; try rewrite Hidx; try reflexivity.
  destruct (JS.lookup props key); reflexivity.
Qed.

(** *** The operators of the normalizer on a field *)

Lemma nullish_field (field : option Json) (default : JsValue) :
  JS.nullish (field_value field) default = unless_nullish field default.
Proof. destruct field as [[]|]; reflexivity. Qed.

Lemma or_field (field : option Json) (default : JsValue) :
  JS.or (field_value field) default = unless_falsy field default.
Proof. destruct field; reflexivity. Qed.

Lemma truthy_field_value (field : option Json) :
  JS.ToBoolean (field_value field) = truthy_field field.
Proof. destruct field; reflexivity. Qed.

Lemma array_field (field : option Json) :
  (if JS.Array_isArray (field_value field)
   then field_value field
   else J (JArr [])) = unless_not_array field.
Proof. destruct field as [[]|]; reflexivity. Qed.

(** *** The normalizer on a truthy document *)

Lemma normalize_truthy (doc : Json) :
  JS.ToBoolean (J doc) = true ->
  normalizeLicenseStatus (J doc) = Normal (Some (snapshot_of doc)).
Proof.
  intros Hdoc. unfold normalizeLicenseStatus. rewrite Hdoc. simpl negb. cbv iota.
  rewrite !get_plain_key by (reflexivity || assumption).
  cbn [bind].
  replace (if JS.Array_isArray (field_value (own_field doc "warnings"))
           then Normal (field_value (own_field doc "warnings"))
           else Normal (J (JArr [])))
    with (Normal (unless_not_array (own_field doc "warnings"))).
  2:{ rewrite <- array_field.
      destruct (JS.Array_isArray _); reflexivity. }
  cbn [bind].
  rewrite !nullish_field, !or_field, truthy_field_value.
  reflexivity.
Qed.

Lemma normalize_falsy (raw : JsValue) :
  JS.ToBoolean raw = false ->
  normalizeLicenseStatus raw = Normal None.
Proof.
  intros Hraw. unfold normalizeLicenseStatus. rewrite Hraw. reflexivity.
Qed.

(** *** The entitlement evaluator *)

Lemma canUse_valid (snap : LicenseSnapshot) (props : list (string * Json))
  (key : string) :
  isValid snap = true ->
  key <> "" ->
  features snap = J (JObj props) ->
  canUse (Some snap) (Some key) =
  (feature <- JS.get (J (JObj props)) key ;;
   if JS.is_undefined feature then Normal false
   else if JS.typeof feature =? "boolean" then Normal (JS.ToBoolean feature)
   else if (JS.typeof feature =? "object") && negb (JS.is_null feature)
   then present <- JS.has_property "enabled" feature ;;
        if (present : bool)
        then enabled <- JS.get feature "enabled" ;;
             Normal (JS.ToBoolean enabled)
        else Normal true
   else Normal false).
Proof.
  intros Hvalid Hkey Hfeatures. unfold canUse.
  rewrite Hvalid, Hfeatures. apply String.eqb_neq in Hkey. rewrite Hkey.
  reflexivity.
Qed.

(** A flag that the features mapping itself holds is resolved as the
    specification says. *)
Lemma canUse_own_flag (snap : LicenseSnapshot)
  (props : list (string * Json)) (key : string) (flag : Json) :
  isValid snap = true ->
  key <> "" ->
  features snap = J (JObj props) ->
  JS.lookup props key = Some flag ->
  canUse (Some snap) (Some key) = Normal (flag_resolution (Some flag)).
Proof.
  intros Hvalid Hkey Hfeatures Hflag.
  rewrite (canUse_valid snap Hvalid Hkey Hfeatures).
  rewrite get_object, Hflag. cbn [bind].
  destruct flag as [ | b | x | s | elems | descriptor ]; try reflexivity.
  cbn. unfold JS.member, JS.own_property, flag_resolution.
  destruct (JS.lookup descriptor "enabled") as [enabled|] eqn:Henabled.
  - reflexivity.
  - reflexivity.
Qed.

(** A key the mapping does not hold is denied, unless it is [__proto__]. *)
Lemma canUse_absent_key (snap : LicenseSnapshot)
  (props : list (string * Json)) (key : string) :
  isValid snap = true ->
  key <> "" ->
  key <> "__proto__" ->
  features snap = J (JObj props) ->
  JS.lookup props key = None ->
  canUse (Some snap) (Some key) = Normal false.
Proof.
  intros Hvalid Hkey Hproto Hfeatures Habsent.
  rewrite (canUse_valid snap Hvalid Hkey Hfeatures).
  rewrite get_object, Habsent. unfold JS.inherited. cbn [JS.chain find].
  destruct (JS.has_method key ObjectPrototype); [reflexivity|].
  apply String.eqb_neq in Hproto. rewrite Hproto. reflexivity.
Qed.

(** Away from the key [__proto__], [canUse] on a valid license is the flag
    resolution of the specification applied to the features mapping. *)
Lemma canUse_resolves_flag (snap : LicenseSnapshot)
  (props : list (string * Json)) (key : string) :
  isValid snap = true ->
  key <> "" ->
  key <> "__proto__" ->
  features snap = J (JObj props) ->
  canUse (Some snap) (Some key) =
  Normal (flag_resolution (JS.lookup props key)).
Proof.
  intros Hvalid Hkey Hproto Hfeatures.
  destruct (JS.lookup props key) as [flag|] eqn:Hflag.
  - now apply canUse_own_flag with (props := props).
  - now apply canUse_absent_key with (props := props).
Qed.

(** C1, at the key where the code departs from it: on a valid license whose
    features mapping does not mention [__proto__], [canUse] nevertheless
    answers [true] for that key.  The read [features['__proto__']] reaches
    the accessor inherited from [Object.prototype] and yields the prototype
    object, which [canUse] takes for a descriptor without an [enabled]
    field. *)
Theorem canUse_grants_inherited_proto_key (snap : LicenseSnapshot)
  (props : list (string * Json)) :
  isValid snap = true ->
  features snap = J (JObj props) ->
  JS.lookup props "__proto__" = None ->
  canUse (Some snap) (Some "__proto__") = Normal true
  /\ flag_resolution (JS.lookup props "__proto__") = false.
Proof.
  intros Hvalid Hfeatures Habsent. split.
  - rewrite canUse_valid with (props := props);
      [ | assumption | discriminate | assumption ].
    rewrite get_object, Habsent. reflexivity.
  - rewrite Habsent. reflexivity.
Qed.

(** C2. Without a license, or with a license whose [isValid] is false,
    [canUse] returns false for every feature key, whatever the features
    hold. *)
Theorem canUse_invalid_license (key : option string) :
  canUse None key = Normal false
  /\ forall snap : LicenseSnapshot,
       isValid snap = false -> canUse (Some snap) key = Normal false.
Proof.
  split; [reflexivity|].
  intros snap Hinvalid. unfold canUse. rewrite Hinvalid. reflexivity.
Qed.

(** C8. On a valid license, [canUse] with an absent or empty feature key
    returns true. *)
Theorem canUse_no_feature_key (snap : LicenseSnapshot) :
  isValid snap = true ->
  canUse (Some snap) None = Normal true
  /\ canUse (Some snap) (Some "") = Normal true.
Proof.
  intros Hvalid. unfold canUse. rewrite Hvalid. split; reflexivity.
Qed.

(** C9. [canUse] reads nothing of a snapshot but [isValid] and [features]:
    two snapshots that agree on both get the same answer for every key. *)
Theorem canUse_depends_on_validity_and_features
  (snap1 snap2 : LicenseSnapshot) (key : option string) :
  isValid snap1 = isValid snap2 ->
  features snap1 = features snap2 ->
  canUse (Some snap1) key = canUse (Some snap2) key.
Proof.
  intros Hvalid Hfeatures. unfold canUse.
  rewrite Hvalid, Hfeatures. reflexivity.
Qed.

(** *** The reason shown for a disabled feature *)


(** *** The normalizer *)


(** C4, as the code has it. [normalizeLicenseStatus] returns [null] exactly
    for the falsy inputs ([undefined], [null], [false], zero, the empty
    string), and a snapshot with every field set for every truthy one. *)
Theorem normalize_null_iff_falsy (doc : Json) :
  normalizeLicenseStatus JUndefined = Normal None
  /\ (normalizeLicenseStatus (J doc) = Normal None
      <-> JS.ToBoolean (J doc) = false)
  /\ (JS.ToBoolean (J doc) = true ->
      normalizeLicenseStatus (J doc) = Normal (Some (snapshot_of doc))).
Proof.
  split; [reflexivity|]. split; [|apply normalize_truthy].
  destruct (JS.ToBoolean (J doc)) eqn:Hdoc.
  - rewrite (normalize_truthy doc Hdoc). split; discriminate.
  - rewrite (normalize_falsy (J doc) Hdoc). split; reflexivity.
Qed.

(** C7. [normalizeLicenseStatus] completes normally on an absent input and
    on every JSON value, whatever its shape; in a snapshot it returns,
    [warnings] is the raw array, or the empty array when the raw value is
    not an array. *)
Theorem normalize_never_throws (doc : Json) :
  normalizeLicenseStatus JUndefined = Normal None
  /\ exists result : option LicenseSnapshot,
       normalizeLicenseStatus (J doc) = Normal result
       /\ match result with
          | Some snap =>
              warnings snap = unless_not_array (own_field doc "warnings")
              /\ JS.Array_isArray (warnings snap) = true
          | None => JS.ToBoolean (J doc) = false
          end.
Proof.
  split; [reflexivity|].
  destruct (JS.ToBoolean (J doc)) eqn:Hdoc.
  - exists (Some (snapshot_of doc)). split; [now apply normalize_truthy|].
    split; [reflexivity|]. cbn [warnings snapshot_of].
    destruct (own_field doc "warnings") as [[]|]; reflexivity.
  - exists None. split; [now apply normalize_falsy|reflexivity].
Qed.

(** *** The status store *)

Lemma loadStatus_rejected (err : JsError) :
  loadStatus (fun _ => Throw err) =
  ([SetLoading true; SetError None;
    ConsoleError "Failed to fetch license status" err;
    SetError (Some err); SetLicense None; SetLoading false],
   Normal tt).
Proof. reflexivity. Qed.

Lemma loadStatus_resolved (doc : Json) :
  loadStatus (fun _ => Normal doc) =
  ([SetLoading true; SetError None;
    SetLicense (if JS.ToBoolean (J doc) then Some (snapshot_of doc) else None);
    SetLoading false],
   Normal tt).
Proof.
  unfold loadStatus, try_catch_finally, pbind, await, setLicense, setLoading,
    setError, perform.
  destruct (JS.ToBoolean (J doc)) eqn:Hdoc.
  - rewrite (normalize_truthy doc Hdoc). reflexivity.
  - rewrite (normalize_falsy (J doc) Hdoc). reflexivity.
Qed.

(** C5. When the fetch collaborator rejects with [err], [loadStatus]
    completes normally (nothing is rethrown) and leaves the store with no
    snapshot, [err] as the error and [loading] false; and whatever the
    outcome of the fetch, the last thing [loadStatus] does is
    [setLoading(false)]. *)
Theorem loadStatus_failure (s : Store) (err : JsError)
  (outcome : Completion Json) :
  let failed := loadStatus (fun _ => Throw err) in
  let any := loadStatus (fun _ => outcome) in
  completion failed = Normal tt
  /\ license (run s failed) = None
  /\ error (run s failed) = Some err
  /\ loading (run s failed) = false
  /\ completion any = Normal tt
  /\ loading (run s any) = false
  /\ exists before : list Effect,
       effects any = (before ++ [SetLoading false])%list.
Proof.
  cbv zeta. rewrite loadStatus_rejected.
  repeat (split; [reflexivity|]).
  destruct outcome as [doc|err'].
  - rewrite loadStatus_resolved.
    repeat (split; [reflexivity|]).
    eexists [_; _; _]. reflexivity.
  - rewrite loadStatus_rejected.
    repeat (split; [reflexivity|]).
    eexists [_; _; _; _; _]. reflexivity.
Qed.

(** C10. When the fetch collaborator resolves with [null], which is what
    the HTTP client makes of an empty body of a successful response,
    [loadStatus] completes normally and leaves the store with no snapshot,
    no error and [loading] false. *)
Theorem loadStatus_null_body (s : Store) (code : nat) :
  let empty_body := fun _ _ : string =>
    Normal {| HttpClient.ok := true; HttpClient.status := code;
              HttpClient.text := Normal "" |} in
  let resolved := loadStatus (fun _ => Normal JNull) in
  LicenseApi.fetchLicenseStatus empty_body = Normal JNull
  /\ refreshLicenseStatus empty_body = resolved
  /\ completion resolved = Normal tt
  /\ license (run s resolved) = None
  /\ error (run s resolved) = None
  /\ loading (run s resolved) = false.
Proof.
  cbv zeta. repeat split.
Qed.

End Properties.

(* ================================================================= *)
(** ** Instances at concrete inputs *)

Lemma canUse_grants_inherited_proto_key_witness :
  canUse (host := sample_host)
    (Some (sample_snapshot true "active" (JObj []))) (Some "__proto__")
  = Normal true
  /\ flag_resolution (JS.lookup [] "__proto__") = false.
Proof.
  apply (@canUse_grants_inherited_proto_key sample_host
           (sample_snapshot true "active" (JObj [])) []); reflexivity.
Defined.

Lemma canUse_invalid_license_witness :
  isValid (sample_snapshot false "expired" (JObj sample_features)) = false
  /\ canUse (host := sample_host)
       (Some (sample_snapshot false "expired" (JObj sample_features)))
       (Some "a")
     = Normal false.
Proof.
  split; [reflexivity|].
  apply (proj2 (@canUse_invalid_license sample_host (Some "a"))).
  reflexivity.
Defined.

Lemma canUse_no_feature_key_witness :
  isValid (sample_snapshot true "active" (JObj [])) = true
  /\ canUse (host := sample_host)
       (Some (sample_snapshot true "active" (JObj []))) None
     = Normal true
  /\ canUse (host := sample_host)
       (Some (sample_snapshot true "active" (JObj []))) (Some "")
     = Normal true.
Proof.
  split; [reflexivity|].
  apply (@canUse_no_feature_key sample_host). reflexivity.
Defined.

Lemma canUse_depends_on_validity_and_features_witness :
  status (sample_snapshot true "active" (JObj sample_features))
  <> status (sample_snapshot true "grace" (JObj sample_features))
  /\ canUse (host := sample_host)
       (Some (sample_snapshot true "active" (JObj sample_features)))
       (Some "c")
     = canUse (host := sample_host)
         (Some (sample_snapshot true "grace" (JObj sample_features)))
         (Some "c").
Proof.
  split; [discriminate|].
  apply (@canUse_depends_on_validity_and_features sample_host); reflexivity.
Defined.



Lemma normalize_null_iff_falsy_witness :
  JS.ToBoolean (J (JObj [])) = true
  /\ normalizeLicenseStatus (host := sample_host) (J (JObj []))
     = Normal (Some (snapshot_of (JObj []))).
Proof.
  split; [reflexivity|].
  apply (proj2 (proj2 (@normalize_null_iff_falsy sample_host (JObj [])))).
  reflexivity.
Defined.

(** *** Where the code departs from the claims as worded *)


(** C4 as worded fails: the input [false] is not [null], and the normalizer
    returns [null] for it; so it does for zero and for the empty string. *)
Lemma normalize_false_gives_null :
  J (JBool false) <> JS.null
  /\ normalizeLicenseStatus (host := sample_host) (J (JBool false))
     = Normal None
  /\ normalizeLicenseStatus (host := sample_host)
       (J (JNum (S754_zero false)))
     = Normal None
  /\ normalizeLicenseStatus (host := sample_host) (J (JStr ""))
     = Normal None.
Proof.
  split; [discriminate|]. repeat split.
Qed.


(* ================================================================= *)
(** ** The scenarios of the specification *)

Example variant_resolution_scenario :
  map (canUse (host := sample_host)
         (Some (sample_snapshot true "active" (JObj sample_features))))
      [Some "a"; Some "b"; Some "c"; Some "d"; Some "e"; Some "f"]
  = [Normal true; Normal false; Normal true; Normal false; Normal true;
     Normal false].
Proof. reflexivity. Qed.

Example end_to_end_scenario :
  let s0 := {| license := None; loading := false; error := None |} in
  let s := run s0 (loadStatus (host := sample_host)
                     (fun _ => Normal active_document)) in
  loading s = false
  /\ error s = None
  /\ option_map isValid (license s) = Some true
  /\ canUse (host := sample_host) (license s) (Some "pipeline_execution")
     = Normal true
  /\ canUse (host := sample_host) (license s) (Some "advanced_export")
     = Normal false.
Proof. repeat split. Qed.

Example end_to_end_failure_scenario :
  let s0 := {| license := None; loading := false; error := None |} in
  let s := run s0 (refreshLicenseStatus (host := sample_host)
                     (fun _ _ => Throw (TransportError "Failed to fetch"))) in
  loading s = false
  /\ license s = None
  /\ error s = Some (TransportError "Failed to fetch")
  /\ canUse (host := sample_host) (license s) (Some "pipeline_execution")
     = Normal false.
Proof. repeat split. Qed.

(* ================================================================= *)
(** ** Further properties of the client, the normalizer and the views *)

Section MoreProperties.
Context {host : Host}.

(** *** The HTTP client *)

(** X1. For a response that is ok, [request] throws only when reading
    the body rejects, and then throws that rejection; otherwise it returns
    the body: [null] for an empty body, the parsed document when the body
    parses, and the body itself as a string when it does not. *)
Theorem request_ok_returns_body (fetch : HttpClient.Fetch)
  (path method : string) (response : HttpClient.Response) :
  fetch method path = Normal response ->
  HttpClient.ok response = true ->
  match HttpClient.text response with
  | Throw e => HttpClient.request fetch path method = Throw e
  | Normal body =>
      exists data : Json,
        HttpClient.request fetch path method = Normal data
        /\ (body = "" -> data = JNull)
        /\ (body <> "" -> JSON_parse body = None -> data = JStr body)
        /\ (forall doc : Json,
              body <> "" -> JSON_parse body = Some doc -> data = doc)
  end.
Proof.
  intros Hfetch Hok. unfold HttpClient.request.
  rewrite Hfetch. cbn [bind].
  destruct (HttpClient.text response) as [body|e]; cbn [bind];
    [|reflexivity].
  rewrite Hok. cbn [negb]. eexists. split; [reflexivity|].
  destruct (body =? "") eqn:Hbody.
  - apply String.eqb_eq in Hbody. cbn [negb].
    split; [reflexivity|]. split; intros; congruence.
  - apply String.eqb_neq in Hbody. cbn [negb].
    split; [congruence|].
    split; [intros _ Hparse | intros doc _ Hparse]; rewrite Hparse; reflexivity.
Qed.

(** X2. For a response that is not ok, [request] always throws: the
    rejection of the body read if reading the body rejects, and otherwise
    an error carrying the status of the response and, as its data, exactly
    what [request] would have returned had the same response been ok. *)
Theorem request_not_ok_throws (fetch : HttpClient.Fetch)
  (path method : string) (response : HttpClient.Response) :
  fetch method path = Normal response ->
  HttpClient.ok response = false ->
  match HttpClient.text response with
  | Throw e => HttpClient.request fetch path method = Throw e
  | Normal body =>
      exists data : Json,
        HttpClient.request fetch path method
        = Throw (HttpError (HttpClient.status response) data)
        /\ HttpClient.request
             (fun _ _ =>
                Normal {| HttpClient.ok := true;
                          HttpClient.status := HttpClient.status response;
                          HttpClient.text := Normal body |})
             path method
           = Normal data
  end.
Proof.
  intros Hfetch Hok. unfold HttpClient.request.
  rewrite Hfetch. cbn [bind].
  destruct (HttpClient.text response) as [body|e]; cbn [bind];
    [|reflexivity].
  rewrite Hok. eexists. split; reflexivity.
Qed.

(** X3. A rejection of [fetch], or of reading the body, leaves [request]
    as it is: the same error is thrown, whether or not the response was
    ok. *)
Theorem request_propagates_rejection (fetch : HttpClient.Fetch)
  (path method : string) (e : JsError) :
  (fetch method path = Throw e ->
   HttpClient.request fetch path method = Throw e)
  /\ (forall response : HttpClient.Response,
        fetch method path = Normal response ->
        HttpClient.text response = Throw e ->
        HttpClient.request fetch path method = Throw e).
Proof.
  unfold HttpClient.request. split.
  - intros Hfetch. rewrite Hfetch. reflexivity.
  - intros response Hfetch Htext. rewrite Hfetch. cbn [bind].
    rewrite Htext. reflexivity.
Qed.

(** *** The normalizer *)

Lemma normalize_some_inv (doc : Json) (snap : LicenseSnapshot) :
  normalizeLicenseStatus (J doc) = Normal (Some snap) ->
  JS.ToBoolean (J doc) = true /\ snap = snapshot_of doc.
Proof.
  intros Hsnap. destruct (JS.ToBoolean (J doc)) eqn:Hdoc.
  - rewrite (normalize_truthy doc Hdoc) in Hsnap.
    split; congruence.
  - rewrite (normalize_falsy (J doc) Hdoc) in Hsnap. discriminate.
Qed.

Lemma unless_nullish_defined (field : option Json) (default : JsValue) :
  JS.is_undefined default = false ->
  JS.is_undefined (unless_nullish field default) = false.
Proof. intros Hdefault. destruct field as [[]|]; auto. Qed.

Lemma unless_nullish_not_null (field : option Json) (default : JsValue) :
  JS.is_null default = false ->
  JS.is_null (unless_nullish field default) = false.
Proof. intros Hdefault. destruct field as [[]|]; auto. Qed.

Lemma unless_falsy_truthy (field : option Json) (default : JsValue) :
  JS.ToBoolean default = true ->
  JS.ToBoolean (unless_falsy field default) = true.
Proof.
  intros Hdefault. destruct field as [v|]; [|assumption].
  unfold unless_falsy. destruct (JS.ToBoolean (J v)) eqn:Hv; assumption.
Qed.

(** X4. Every snapshot the normalizer returns has a [status] and a
    [statusMessage] that are neither [null] nor [undefined], no optional
    field that is [undefined], truthy [features] and [limits], an array
    for [warnings], and the input under [raw]. *)
Theorem normalize_snapshot_invariants (doc : Json) (snap : LicenseSnapshot) :
  normalizeLicenseStatus (J doc) = Normal (Some snap) ->
  Forall (fun v => JS.is_undefined v = false /\ JS.is_null v = false)
         [status snap; statusMessage snap]
  /\ Forall (fun v => JS.is_undefined v = false)
            [licenseId snap; customerName snap; editionCode snap;
             editionName snap; licenseType snap; validFrom snap;
             validUntil snap]
  /\ JS.ToBoolean (features snap) = true
  /\ JS.ToBoolean (limits snap) = true
  /\ JS.Array_isArray (warnings snap) = true
  /\ raw snap = J doc.
Proof.
  intros Hsnap. apply normalize_some_inv in Hsnap as [_ ->].
  cbn [snapshot_of status statusMessage licenseId customerName editionCode
       editionName licenseType validFrom validUntil features limits warnings
       raw].
  repeat split.
  - repeat constructor;
      (apply unless_nullish_defined || apply unless_nullish_not_null);
      reflexivity.
  - repeat constructor; apply unless_nullish_defined; reflexivity.
  - apply unless_falsy_truthy. reflexivity.
  - apply unless_falsy_truthy. reflexivity.
  - destruct (own_field doc "warnings") as [[]|]; reflexivity.
Qed.

(** X5. A truthy document that is not an object (a string such as an
    HTML page, a number, [true], an array) is normalized like the empty
    object: every field at its default, the document itself under
    [raw]. *)
Theorem normalize_non_object_document (doc : Json) :
  (forall props, doc <> JObj props) ->
  JS.ToBoolean (J doc) = true ->
  normalizeLicenseStatus (J doc)
  = Normal (Some (with_raw (snapshot_of (JObj [])) (J doc)))
  /\ isValid (snapshot_of (JObj [])) = false
  /\ status (snapshot_of (JObj [])) = JS.str "unknown".
Proof.
  intros Hshape Hdoc. rewrite (normalize_truthy doc Hdoc).
  split; [|split; reflexivity].
  destruct doc; try reflexivity.
  exfalso. eapply Hshape. reflexivity.
Qed.

Lemma lookup_other_field (before after : list (string * Json))
  (extra name : string) (v : Json) :
  extra <> name ->
  JS.lookup (before ++ (extra, v) :: after) name
  = JS.lookup (before ++ after) name.
Proof.
  intros Hother. induction before as [|[k w] before IH]; cbn.
  - apply String.eqb_neq in Hother. rewrite Hother. reflexivity.
  - destruct (k =? name); [reflexivity|exact IH].
Qed.

(** X6. A field whose name the normalizer does not read has no influence
    on the snapshot, wherever it stands in the document: apart from
    [raw], the snapshot is that of the document without the field. *)
Theorem normalize_ignores_unknown_fields
  (before after : list (string * Json)) (extra : string) (v : Json) :
  ~ In extra known_fields ->
  exists snap : LicenseSnapshot,
    normalizeLicenseStatus (J (JObj (before ++ after))) = Normal (Some snap)
    /\ normalizeLicenseStatus (J (JObj (before ++ (extra, v) :: after)))
       = Normal (Some (with_raw snap
                         (J (JObj (before ++ (extra, v) :: after))))).
Proof.
  intros Hextra. exists (snapshot_of (JObj (before ++ after))).
  rewrite !normalize_truthy by reflexivity.
  split; [reflexivity|].
  unfold snapshot_of, with_raw, own_field.
  cbn [status statusMessage isValid licenseId customerName editionCode
       editionName licenseType validFrom validUntil features limits warnings
       raw].
  rewrite !lookup_other_field
    by (intros ->; apply Hextra; cbn; tauto).
  reflexivity.
Qed.

(** *** The entitlement evaluator on normalized snapshots *)

Lemma get_truthy_json (j : Json) (key : string) :
  JS.ToBoolean (J j) = true ->
  exists x : JsValue, JS.get (J j) key = Normal x.
Proof.
  intros Hj. destruct j; try discriminate; unfold JS.get;
    match goal with
    | |- context [JS.member ?v key] => destruct (JS.member v key)
    end; eauto.
Qed.

Lemma get_object_value (v : JsValue) (key : string) :
  JS.typeof v = "object" ->
  JS.is_null v = false ->
  exists x : JsValue, JS.get v key = Normal x.
Proof.
  intros Htype Hnull.
  destruct v as [ | [] | p | owner name ]; try discriminate; unfold JS.get;
    match goal with
    | |- context [JS.member ?v key] => destruct (JS.member v key)
    end; eauto.
Qed.

Lemma has_property_object_value (v : JsValue) (key : string) :
  JS.typeof v = "object" ->
  JS.is_null v = false ->
  exists present : bool, JS.has_property key v = Normal present.
Proof.
  intros Htype Hnull.
  destruct v as [ | [] | p | owner name ]; try discriminate;
    unfold JS.has_property; eauto.
Qed.

Lemma canUse_json_features (snap : LicenseSnapshot) (j : Json)
  (key : option string) :
  features snap = J j ->
  exists allowed : bool, canUse (Some snap) key = Normal allowed.
Proof.
  intros Hfeatures. unfold canUse.
  destruct (isValid snap); cbn [negb]; [|eauto].
  destruct key as [k|]; [|eauto].
  destruct (k =? ""); [eauto|].
  rewrite Hfeatures.
  assert (Hsource : exists j', JS.or (J j) (J (JObj [])) = J j'
                               /\ JS.ToBoolean (J j') = true).
  { unfold JS.or. destruct (JS.ToBoolean (J j)) eqn:Hj; eauto. }
  destruct Hsource as (j' & -> & Hj').
  destruct (get_truthy_json j' k Hj') as [feature ->]. cbn [bind].
  destruct (JS.is_undefined feature); [eauto|].
  destruct (JS.typeof feature =? "boolean"); [eauto|].
  destruct (JS.typeof feature =? "object") eqn:Htype; [|cbn; eauto].
  destruct (JS.is_null feature) eqn:Hnull; [cbn; eauto|]. cbn [negb andb].
  apply String.eqb_eq in Htype.
  destruct (has_property_object_value feature "enabled" Htype Hnull)
    as [present ->]. cbn [bind].
  destruct present; [|eauto].
  destruct (get_object_value feature "enabled" Htype Hnull) as [enabled ->].
  cbn [bind]. eauto.
Qed.

Lemma normalized_features_json (doc : Json) :
  exists j : Json, features (snapshot_of doc) = J j.
Proof.
  cbn [features snapshot_of]. unfold unless_falsy.
  destruct (own_field doc "features") as [v|]; [|eauto].
  destruct (JS.ToBoolean (J v)); eauto.
Qed.

(** X7. On a snapshot returned by the normalizer [canUse] never throws,
    whatever the document put under [features] and whatever the key: the
    tests on [typeof] keep [in] and the property reads away from
    primitives and from [null]. *)
Theorem canUse_total_on_normalized (doc : Json) (snap : LicenseSnapshot)
  (key : option string) :
  normalizeLicenseStatus (J doc) = Normal (Some snap) ->
  exists allowed : bool, canUse (Some snap) key = Normal allowed.
Proof.
  intros Hsnap. apply normalize_some_inv in Hsnap as [_ ->].
  destruct (normalized_features_json doc) as [j Hj].
  now apply canUse_json_features with (j := j).
Qed.

(** X8. From document to answer: when the document's [features] is an
    object (or is absent or falsy, which counts as the empty object),
    [canUse] on the normalized snapshot grants a key other than
    [__proto__] exactly when [is_valid] is truthy and the flag found at the
    key resolves to true. *)
Theorem canUse_after_normalize (doc : Json) (snap : LicenseSnapshot)
  (flags : list (string * Json)) (key : string) :
  normalizeLicenseStatus (J doc) = Normal (Some snap) ->
  unless_falsy (own_field doc "features") (J (JObj [])) = J (JObj flags) ->
  key <> "" ->
  key <> "__proto__" ->
  canUse (Some snap) (Some key)
  = Normal (truthy_field (own_field doc "is_valid")
            && flag_resolution (JS.lookup flags key)).
Proof.
  intros Hsnap Hflags Hkey Hproto.
  apply normalize_some_inv in Hsnap as [_ ->].
  destruct (truthy_field (own_field doc "is_valid")) eqn:Hvalid.
  - now apply canUse_resolves_flag.
  - unfold canUse. cbn [isValid snapshot_of]. rewrite Hvalid. reflexivity.
Qed.

(** X9. [canUse] grants nothing on the snapshot of a document whose
    [is_valid] is absent or falsy: an answer of true means the field was
    truthy. *)
Theorem canUse_true_needs_valid_document (doc : Json)
  (snap : LicenseSnapshot) (key : option string) :
  normalizeLicenseStatus (J doc) = Normal (Some snap) ->
  canUse (Some snap) key = Normal true ->
  truthy_field (own_field doc "is_valid") = true.
Proof.
  intros Hsnap Hgranted.
  apply normalize_some_inv in Hsnap as [_ ->].
  unfold canUse in Hgranted. cbn [isValid snapshot_of] in Hgranted.
  destruct (truthy_field (own_field doc "is_valid")); [reflexivity|].
  discriminate.
Qed.

(** *** The status store *)

Lemma loadStatus_outcome (f : unit -> Completion Json) :
  loadStatus f = loadStatus (fun _ => f tt).
Proof. reflexivity. Qed.

(** X10. The store a refresh leaves depends only on the outcome of its
    fetch, not on what the store held before; so of two refreshes run one
    after the other only the second shows, and a refresh after a failed
    one starts from a clean slate. *)
Theorem loadStatus_overwrites_store (s1 s2 : Store)
  (f g : unit -> Completion Json) :
  run s1 (loadStatus g) = run s2 (loadStatus g)
  /\ run (run s1 (loadStatus f)) (loadStatus g) = run s1 (loadStatus g).
Proof.
  rewrite (loadStatus_outcome g).
  destruct (g tt) as [doc|err].
  - rewrite loadStatus_resolved. split; reflexivity.
  - rewrite loadStatus_rejected. split; reflexivity.
Qed.

Lemma loadStatus_phases (f : unit -> Completion Json) :
  loadStatus f = (loadStatus_begin ;;; loadStatus_settle (f tt)).
Proof.
  unfold loadStatus, loadStatus_begin, loadStatus_settle, pbind, setLoading,
    setError, perform.
  destruct (try_catch_finally _ _ _) as [done r]. reflexivity.
Qed.

Lemma settle_rejected (s : Store) (e : JsError) :
  run s (loadStatus_settle (Throw e))
  = {| license := None; loading := false; error := Some e |}.
Proof. reflexivity. Qed.

Lemma settle_resolved (s : Store) (doc : Json) :
  run s (loadStatus_settle (Normal doc))
  = {| license := if JS.ToBoolean (J doc)
                  then Some (snapshot_of doc)
                  else None;
       loading := false;
       error := error s |}.
Proof.
  unfold loadStatus_settle, try_catch_finally, pbind, await, setLicense,
    setLoading, perform.
  destruct (JS.ToBoolean (J doc)) eqn:Hdoc.
  - rewrite (normalize_truthy doc Hdoc). reflexivity.
  - rewrite (normalize_falsy (J doc) Hdoc). reflexivity.
Qed.

(** X11. What a settling refresh writes.  Settling with a rejection leaves
    no snapshot and that error, whatever the store held.  Settling with a
    resolution installs what the normalizer returns and lowers [loading],
    but leaves the error as it finds it.  So a refresh that runs alone from
    beginning to end never leaves both a snapshot and an error; but when,
    of two refreshes that overlap, one rejects and the other then resolves
    with a truthy document, the store ends with the snapshot and the error
    of the failed refresh together. *)
Theorem settle_writes (s : Store) (e : JsError) (doc : Json)
  (outcome : Completion Json) :
  run_phases s [Settle (Throw e)]
  = {| license := None; loading := false; error := Some e |}
  /\ run_phases s [Settle (Normal doc)]
     = {| license := if JS.ToBoolean (J doc)
                     then Some (snapshot_of doc)
                     else None;
          loading := false;
          error := error s |}
  /\ run_phases s [Begin; Settle outcome]
     = run s (loadStatus (fun _ => outcome))
  /\ (license (run_phases s [Begin; Settle outcome]) = None
      \/ error (run_phases s [Begin; Settle outcome]) = None)
  /\ (JS.ToBoolean (J doc) = true ->
      run_phases s [Begin; Begin; Settle (Throw e); Settle (Normal doc)]
      = {| license := Some (snapshot_of doc);
           loading := false;
           error := Some e |}).
Proof.
  unfold run_phases. cbn [fold_left run_phase].
  split; [apply settle_rejected|].
  split; [apply settle_resolved|].
  split; [|split].
  - rewrite (loadStatus_phases (fun _ => outcome)).
    unfold run, effects, pbind, loadStatus_begin, setLoading, setError,
      perform.
    destruct (loadStatus_settle outcome) as [done r]. reflexivity.
  - destruct outcome as [doc'|e'].
    + rewrite settle_resolved. right. reflexivity.
    + rewrite settle_rejected. left. reflexivity.
  - intros Hdoc. rewrite settle_rejected, settle_resolved, Hdoc. reflexivity.
Qed.

(** X12. A refresh begins by raising [loading] and clearing the error,
    and raises [loading] only then; in the store as these two steps
    leave it, [loading] is up, no error shows and the previous snapshot
    is still in place. *)
Theorem loadStatus_begins_loading (s : Store)
  (f : unit -> Completion Json) :
  exists rest : list Effect,
    effects (loadStatus f) = SetLoading true :: SetError None :: rest
    /\ ~ In (SetLoading true) rest
    /\ fold_left apply_effect [SetLoading true; SetError None] s
       = {| license := license s; loading := true; error := None |}.
Proof.
  rewrite (loadStatus_outcome f).
  destruct (f tt) as [doc|err].
  - rewrite loadStatus_resolved. eexists. split; [reflexivity|].
    split; [|reflexivity].
    cbn. intros [H|[H|H]]; [discriminate|discriminate|exact H].
  - rewrite loadStatus_rejected. eexists. split; [reflexivity|].
    split; [|reflexivity].
    cbn. intros [H|[H|[H|[H|H]]]]; try discriminate; exact H.
Qed.

Lemma canUse_invalid_snapshot (snap : LicenseSnapshot)
  (key : option string) :
  isValid snap = false -> canUse (Some snap) key = Normal false.
Proof. intros Hinvalid. unfold canUse. rewrite Hinvalid. reflexivity. Qed.

(** X13. A refresh over HTTP that meets a response which is not ok
    leaves no snapshot and [loading] false, and records an error: the
    rejection of the body read if reading the body rejects, and otherwise
    an error with the status of the response.  [canUse] then refuses every
    key. *)
Theorem refresh_http_failure (s : Store) (fetch : HttpClient.Fetch)
  (response : HttpClient.Response) :
  fetch "GET" "/api/license/status/" = Normal response ->
  HttpClient.ok response = false ->
  let s' := run s (refreshLicenseStatus fetch) in
  license s' = None
  /\ loading s' = false
  /\ match HttpClient.text response with
     | Throw e => error s' = Some e
     | Normal _ =>
         exists data : Json,
           error s' = Some (HttpError (HttpClient.status response) data)
     end
  /\ forall key : option string, canUse (license s') key = Normal false.
Proof.
  intros Hfetch Hok. cbv zeta.
  unfold refreshLicenseStatus.
  unfold LicenseApi.fetchLicenseStatus, HttpClient.get, HttpClient.request.
  rewrite Hfetch. cbn [bind].
  destruct (HttpClient.text response) as [body|e]; cbn [bind].
  - rewrite Hok. cbn [negb].
    rewrite loadStatus_rejected. unfold run. cbn.
    repeat split. eexists. reflexivity.
  - rewrite loadStatus_rejected. unfold run. cbn. repeat split.
Qed.

(** X14. A response that is ok but whose body is not JSON (an HTML page,
    say) is no failure for the refresh: the store gets a snapshot with
    every field at its default and the body text under [raw], no error
    is recorded, and since the snapshot is not valid [canUse] refuses
    every key. *)
Theorem refresh_unparsable_body (s : Store) (fetch : HttpClient.Fetch)
  (response : HttpClient.Response) (body : string) :
  fetch "GET" "/api/license/status/" = Normal response ->
  HttpClient.text response = Normal body ->
  HttpClient.ok response = true ->
  body <> "" ->
  JSON_parse body = None ->
  let s' := run s (refreshLicenseStatus fetch) in
  license s' = Some (with_raw (snapshot_of (JObj [])) (J (JStr body)))
  /\ error s' = None
  /\ loading s' = false
  /\ forall key : option string, canUse (license s') key = Normal false.
Proof.
  intros Hfetch Htext Hok Hbody Hparse. cbv zeta.
  unfold refreshLicenseStatus.
  unfold LicenseApi.fetchLicenseStatus, HttpClient.get, HttpClient.request.
  rewrite Hfetch. cbn [bind]. rewrite Htext, Hok. cbn [bind negb].
  apply String.eqb_neq in Hbody. rewrite Hbody, Hparse. cbn [negb].
  rewrite loadStatus_resolved. unfold run. cbn [effects fst fold_left].
  assert (Htruthy : JS.ToBoolean (J (JStr body)) = true).
  { cbn. rewrite Hbody. reflexivity. }
  rewrite Htruthy. cbn.
  repeat split.
Qed.

(** *** The feature gating demo *)


Lemma disabledReason_allowed (license : option LicenseSnapshot)
  (featureKey : string) :
  FeatureGatingDemo.disabledReason license featureKey true = Normal None.
Proof. reflexivity. Qed.



(** X16. On a snapshot returned by the normalizer the component function
    of the demo throws in one case only: the license is not valid and its
    status cannot be converted to a string (an object with a [toString]
    field of its own); the error is that of the conversion.  Without a
    license it always returns. *)
Theorem demo_throws_iff (doc : Json) (snap : LicenseSnapshot) (e : JsError) :
  normalizeLicenseStatus (J doc) = Normal (Some snap) ->
  (GatingDemoView.FeatureGatingDemo (Some snap) = Throw e
   <-> isValid snap = false /\ JS.ToString (status snap) = Throw e)
  /\ exists view : GatingDemoView.View,
       GatingDemoView.FeatureGatingDemo None = Normal view.
Proof.
  intros Hsnap. split; [|eexists; reflexivity].
  unfold GatingDemoView.FeatureGatingDemo.
  destruct (isValid snap) eqn:Hvalid.
  - destruct (@canUse_total_on_normalized doc snap (Some "pipeline_execution") Hsnap)
      as [a1 ->].
    destruct (@canUse_total_on_normalized doc snap (Some "advanced_export") Hsnap)
      as [a2 ->].
    destruct (@canUse_total_on_normalized doc snap (Some "custom_connectors") Hsnap)
      as [a3 ->].
    cbn [bind]. unfold FeatureGatingDemo.disabledReason. rewrite Hvalid.
    split; [|intros [? _]; discriminate].
    destruct a1, a2, a3; discriminate.
  - rewrite !canUse_invalid_snapshot by assumption. cbn [bind].
    unfold FeatureGatingDemo.disabledReason. rewrite Hvalid. cbn [negb].
    destruct (JS.ToString (status snap)) as [shown|e']; cbn [bind].
    + split; [discriminate|intros [_ ?]; discriminate].
    + split; [intros [= ->]; split; reflexivity|].
      intros [_ [= ->]]. reflexivity.
Qed.

(** *** The status panel over the license context *)

(** X17. What the component function of the panel returns once a
    refresh has settled, whatever the store held when it settled.  The
    "Loading" element is gone.  If the refresh rejected, it returns the
    failure message with the message of the error and neither of the other
    two sections.  If the refresh resolved, the error is as the store held
    it, since a resolution does not write it: with no error pending it
    returns the details element for a truthy document and the notice that
    no license information is available for a falsy one; with an error left
    by an overlapping refresh it returns the failure message only. *)
Theorem panel_after_settle (s : Store) (outcome : Completion Json) :
  let view :=
    ContextStatusPanel.LicenseStatusPanel
      (run_phases s [Settle outcome]) in
  ContextStatusPanel.loading_element view = false
  /\ match outcome with
     | Throw e =>
         ContextStatusPanel.error_element view = Some (error_message e)
         /\ ContextStatusPanel.no_information_element view = false
         /\ ContextStatusPanel.details_element view
            = ContextStatusPanel.NoDetails
     | Normal doc =>
         ContextStatusPanel.error_element view
         = option_map error_message (error s)
         /\ match error s with
            | Some _ =>
                ContextStatusPanel.no_information_element view = false
                /\ ContextStatusPanel.details_element view
                   = ContextStatusPanel.NoDetails
            | None =>
                if JS.ToBoolean (J doc)
                then ContextStatusPanel.no_information_element view = false
                     /\ exists details : ContextStatusPanel.Details,
                          ContextStatusPanel.details_element view
                          = ContextStatusPanel.DetailsElement details
                else ContextStatusPanel.no_information_element view = true
                     /\ ContextStatusPanel.details_element view
                        = ContextStatusPanel.NoDetails
            end
     end.
Proof.
  cbv zeta. unfold run_phases. cbn [fold_left run_phase].
  destruct outcome as [doc|e].
  - rewrite settle_resolved. unfold ContextStatusPanel.LicenseStatusPanel.
    cbn [license loading error ContextStatusPanel.loading_element
         ContextStatusPanel.error_element
         ContextStatusPanel.no_information_element
         ContextStatusPanel.details_element negb andb].
    split; [reflexivity|]. split; [reflexivity|].
    destruct (error s) as [pending|]; [split; reflexivity|].
    destruct (JS.ToBoolean (J doc)); cbn [negb andb];
      (split; [reflexivity|]); [|reflexivity].
    cbn [warnings snapshot_of].
    destruct (own_field doc "warnings") as [[]|]; cbn [unless_not_array];
      eexists; reflexivity.
  - rewrite settle_rejected. cbn. repeat split.
Qed.

Lemma or_unless_nullish (field : option Json) (default : JsValue) :
  JS.or (unless_nullish field JS.null) default = unless_falsy field default.
Proof. destruct field as [[]|]; reflexivity. Qed.

Lemma or_unless_falsy (field : option Json) (default other : JsValue) :
  JS.or (unless_falsy field default) other
  = unless_falsy field (JS.or default other).
Proof.
  destruct field as [v|]; [|reflexivity].
  unfold unless_falsy. destruct (JS.ToBoolean (J v)) eqn:Hv; [|reflexivity].
  unfold JS.or. rewrite Hv. reflexivity.
Qed.

(** X18. The children the details section hands to React, for a store
    that holds the snapshot of a document, is not loading and has no
    error: in the badge the document's [status], or "unknown" if that is
    absent or [null]; in every other line the document's field if it is
    truthy and a dash otherwise, the edition line preferring
    [edition_name] to [edition_code]; and in the box of warnings the items
    of the document's [warnings] if that is a non-empty array, the box
    being left out otherwise. *)
Theorem panel_details_children (store : Store) (doc : Json)
  (snap : LicenseSnapshot) :
  normalizeLicenseStatus (J doc) = Normal (Some snap) ->
  license store = Some snap ->
  loading store = false ->
  error store = None ->
  exists details : ContextStatusPanel.Details,
    ContextStatusPanel.details_element
      (ContextStatusPanel.LicenseStatusPanel store)
    = ContextStatusPanel.DetailsElement details
    /\ ContextStatusPanel.badge details
       = unless_nullish (own_field doc "status") (JS.str "unknown")
    /\ ContextStatusPanel.badge_valid details
       = truthy_field (own_field doc "is_valid")
    /\ ContextStatusPanel.customer details
       = unless_falsy (own_field doc "customer_name") ContextStatusPanel.dash
    /\ ContextStatusPanel.edition details
       = unless_falsy (own_field doc "edition_name")
           (unless_falsy (own_field doc "edition_code")
              ContextStatusPanel.dash)
    /\ ContextStatusPanel.type details
       = unless_falsy (own_field doc "license_type") ContextStatusPanel.dash
    /\ ContextStatusPanel.license_id details
       = unless_falsy (own_field doc "license_id") ContextStatusPanel.dash
    /\ ContextStatusPanel.valid_from details
       = unless_falsy (own_field doc "valid_from") ContextStatusPanel.dash
    /\ ContextStatusPanel.valid_until details
       = unless_falsy (own_field doc "valid_until") ContextStatusPanel.dash
    /\ ContextStatusPanel.warnings_box details
       = match own_field doc "warnings" with
         | Some (JArr (first :: others)) => Some (first :: others)
         | _ => None
         end.
Proof.
  intros Hsnap Hlicense Hloading Herror.
  apply normalize_some_inv in Hsnap as [_ ->].
  unfold ContextStatusPanel.LicenseStatusPanel.
  rewrite Hlicense, Hloading, Herror.
  cbn [negb andb ContextStatusPanel.details_element warnings snapshot_of].
  assert (Hitems : exists items,
             unless_not_array (own_field doc "warnings") = J (JArr items)
             /\ (if (0 <? List.length items)%nat then Some items else None)
                = match own_field doc "warnings" with
                  | Some (JArr (first :: others)) => Some (first :: others)
                  | _ => None
                  end).
  { destruct (own_field doc "warnings") as [[ | | | | [|first others] | ]|];
      eexists; split; reflexivity. }
  destruct Hitems as (items & -> & Hbox).
  eexists. split; [reflexivity|].
  cbn [ContextStatusPanel.badge ContextStatusPanel.badge_valid
       ContextStatusPanel.customer ContextStatusPanel.edition
       ContextStatusPanel.type ContextStatusPanel.license_id
       ContextStatusPanel.valid_from ContextStatusPanel.valid_until
       ContextStatusPanel.warnings_box snapshot_of
       status isValid customerName editionName editionCode
       licenseType licenseId validFrom validUntil].
  rewrite !or_unless_nullish, or_unless_falsy, or_unless_nullish.
  repeat split. exact Hbox.
Qed.

(** *** The status panel that fetches for itself *)

(** X19. If the panel has been unmounted by the time its fetch settles,
    [loadStatus] touches the state no further, whatever the outcome: the
    status and the cleared error stay, [loading] stays raised, and
    nothing is thrown. *)
Theorem standalone_unmounted_no_update (s : StandaloneStatusPanel.State)
  (f : unit -> Completion Json) :
  StandaloneStatusPanel.loadStatus false f s
  = ({| StandaloneStatusPanel.status := StandaloneStatusPanel.status s;
        StandaloneStatusPanel.loading := true;
        StandaloneStatusPanel.error := None |},
     Normal tt).
Proof.
  unfold StandaloneStatusPanel.loadStatus, StandaloneStatusPanel.then_,
    StandaloneStatusPanel.try_catch_finally, StandaloneStatusPanel.await.
  cbn. destruct (f tt); reflexivity.
Qed.

(** X20. While mounted, a rejected fetch records the error and lowers
    [loading] and does not touch the status, which in the component is
    still the [null] it starts with, [loadStatus] running once per mount.
    The component function then returns the failure message with the
    message of the error, and neither the dump of the status nor the notice
    that there is no data yet. *)
Theorem standalone_failure_keeps_status (s : StandaloneStatusPanel.State)
  (f : unit -> Completion Json) (e : JsError) :
  f tt = Throw e ->
  let (s', outcome) := StandaloneStatusPanel.loadStatus true f s in
  let view := StandaloneStatusPanel.LicenseStatusPanel s' in
  outcome = Normal tt
  /\ StandaloneStatusPanel.status s' = StandaloneStatusPanel.status s
  /\ StandaloneStatusPanel.error s' = Some e
  /\ StandaloneStatusPanel.loading s' = false
  /\ StandaloneStatusPanel.loading_element view = false
  /\ StandaloneStatusPanel.error_element view = Some (error_message e)
  /\ StandaloneStatusPanel.data_slot view
     = StandaloneStatusPanel.Stopped (JBool false)
  /\ StandaloneStatusPanel.no_data_element view = false.
Proof.
  intros Hf.
  unfold StandaloneStatusPanel.loadStatus, StandaloneStatusPanel.then_,
    StandaloneStatusPanel.try_catch_finally, StandaloneStatusPanel.await.
  cbn. rewrite Hf. cbn. repeat split.
Qed.

(** X21. While mounted, a resolved fetch stores the document as it came,
    without normalizing it, and clears the error.  For a truthy document
    the component function returns the [pre] element that dumps it and no
    notice.  For a falsy document ([null] for an empty body, but also
    [false], zero or the empty string) it returns the notice that there is
    no data yet, and hands React the falsy document itself in the place of
    the dump. *)
Theorem standalone_success_stores_document
  (s : StandaloneStatusPanel.State) (f : unit -> Completion Json)
  (data : Json) :
  f tt = Normal data ->
  let (s', outcome) := StandaloneStatusPanel.loadStatus true f s in
  let view := StandaloneStatusPanel.LicenseStatusPanel s' in
  outcome = Normal tt
  /\ s' = {| StandaloneStatusPanel.status := data;
             StandaloneStatusPanel.loading := false;
             StandaloneStatusPanel.error := None |}
  /\ StandaloneStatusPanel.error_element view = None
  /\ StandaloneStatusPanel.loading_element view = false
  /\ if JS.ToBoolean (J data)
     then StandaloneStatusPanel.data_slot view
          = StandaloneStatusPanel.StatusDump data
          /\ StandaloneStatusPanel.no_data_element view = false
     else StandaloneStatusPanel.data_slot view
          = StandaloneStatusPanel.Stopped data
          /\ StandaloneStatusPanel.no_data_element view = true.
Proof.
  intros Hf.
  unfold StandaloneStatusPanel.loadStatus, StandaloneStatusPanel.then_,
    StandaloneStatusPanel.try_catch_finally, StandaloneStatusPanel.await.
  cbn. rewrite Hf.
  cbn [StandaloneStatusPanel.when StandaloneStatusPanel.setStatus
       StandaloneStatusPanel.setLoading StandaloneStatusPanel.status
       StandaloneStatusPanel.loading StandaloneStatusPanel.error].
  unfold StandaloneStatusPanel.LicenseStatusPanel.
  cbn [StandaloneStatusPanel.status StandaloneStatusPanel.loading
       StandaloneStatusPanel.error StandaloneStatusPanel.error_element
       StandaloneStatusPanel.loading_element StandaloneStatusPanel.data_slot
       StandaloneStatusPanel.no_data_element negb andb option_map].
  repeat (split; [reflexivity|]).
  change (match data with
          | JNull => false
          | JBool b => b
          | JNum x => negb (JS.is_zero_or_nan x)
          | JStr s0 => negb (s0 =? "")
          | _ => true
          end) with (JS.ToBoolean (J data)).
  destruct (JS.ToBoolean (J data)); split; reflexivity.
Qed.

End MoreProperties.

(* ================================================================= *)
(** ** Instances of the further properties *)

Lemma request_ok_returns_body_witness :
  exists data : Json,
    HttpClient.request (host := sample_host)
      (sample_fetch true 200 "<html>") "/api/license/status/" "GET"
    = Normal data
    /\ data = JStr "<html>".
Proof.
  pose proof (@request_ok_returns_body sample_host
                (sample_fetch true 200 "<html>") "/api/license/status/"
                "GET" _ eq_refl eq_refl) as H.
  cbn [HttpClient.text] in H.
  destruct H as (data & Hdata & _ & Htext & _).
  exists data. split; [exact Hdata|].
  apply Htext; [discriminate|reflexivity].
Defined.

Lemma request_not_ok_throws_witness :
  exists data : Json,
    HttpClient.request (host := sample_host)
      (sample_fetch false 503 "{}") "/api/license/status/" "GET"
    = Throw (HttpError 503 data)
    /\ HttpClient.request (host := sample_host)
         (sample_fetch true 503 "{}") "/api/license/status/" "GET"
       = Normal data.
Proof.
  exact (@request_not_ok_throws sample_host (sample_fetch false 503 "{}")
           "/api/license/status/" "GET" _ eq_refl eq_refl).
Defined.

Lemma request_propagates_rejection_witness :
  HttpClient.request (host := sample_host)
    (fun _ _ => Throw (TransportError "Failed to fetch"))
    "/api/license/status/" "GET"
  = Throw (TransportError "Failed to fetch").
Proof.
  apply (proj1 (@request_propagates_rejection sample_host
                  (fun _ _ => Throw (TransportError "Failed to fetch"))
                  "/api/license/status/" "GET"
                  (TransportError "Failed to fetch"))).
  reflexivity.
Defined.

Lemma normalize_snapshot_invariants_witness :
  normalizeLicenseStatus (host := sample_host) (J mistyped_document)
  = Normal (Some (snapshot_of mistyped_document))
  /\ JS.ToBoolean (features (snapshot_of mistyped_document)) = true
  /\ JS.Array_isArray (warnings (snapshot_of mistyped_document)) = true.
Proof.
  split; [reflexivity|].
  destruct (@normalize_snapshot_invariants sample_host mistyped_document
              (snapshot_of mistyped_document) eq_refl)
    as (_ & _ & Hfeatures & _ & Hwarnings & _).
  split; assumption.
Defined.

Lemma normalize_non_object_document_witness :
  JS.ToBoolean (J (JStr "<html>")) = true
  /\ normalizeLicenseStatus (host := sample_host) (J (JStr "<html>"))
     = Normal (Some (with_raw (snapshot_of (JObj [])) (J (JStr "<html>")))).
Proof.
  split; [reflexivity|].
  apply (@normalize_non_object_document sample_host (JStr "<html>"));
    [discriminate|reflexivity].
Defined.

Lemma normalize_ignores_unknown_fields_witness :
  ~ In "issued_by" known_fields
  /\ exists snap : LicenseSnapshot,
       normalizeLicenseStatus (host := sample_host)
         (J (JObj [("status", JStr "active"); ("is_valid", JBool true)]))
       = Normal (Some snap)
       /\ normalizeLicenseStatus (host := sample_host)
            (J (JObj [("status", JStr "active"); ("issued_by", JStr "ops");
                      ("is_valid", JBool true)]))
          = Normal
              (Some (with_raw snap
                       (J (JObj [("status", JStr "active");
                                 ("issued_by", JStr "ops");
                                 ("is_valid", JBool true)])))).
Proof.
  assert (Hunknown : ~ In "issued_by" known_fields).
  { cbn. intros H.
    repeat (destruct H as [H|H]; [discriminate|]). exact H. }
  split; [exact Hunknown|].
  apply (@normalize_ignores_unknown_fields sample_host
           [("status", JStr "active")] [("is_valid", JBool true)]
           "issued_by" (JStr "ops") Hunknown).
Defined.

Lemma canUse_total_on_normalized_witness :
  isValid (snapshot_of array_features_document) = true
  /\ features (snapshot_of array_features_document)
     = J (JArr [JObj [("enabled", JBool true)]; JStr "x"])
  /\ exists allowed : bool,
       canUse (host := sample_host)
         (Some (snapshot_of array_features_document)) (Some "0")
       = Normal allowed.
Proof.
  split; [reflexivity|]. split; [reflexivity|].
  apply (@canUse_total_on_normalized sample_host array_features_document
           (snapshot_of array_features_document) (Some "0") eq_refl).
Defined.

Lemma canUse_after_normalize_witness :
  canUse (host := sample_host) (Some (snapshot_of active_document))
    (Some "pipeline_execution")
  = Normal true
  /\ canUse (host := sample_host) (Some (snapshot_of active_document))
       (Some "advanced_export")
     = Normal false.
Proof.
  split.
  - apply (@canUse_after_normalize sample_host active_document
             (snapshot_of active_document)
             [("pipeline_execution", JBool true)] "pipeline_execution");
      (reflexivity || discriminate).
  - apply (@canUse_after_normalize sample_host active_document
             (snapshot_of active_document)
             [("pipeline_execution", JBool true)] "advanced_export");
      (reflexivity || discriminate).
Defined.

Lemma canUse_true_needs_valid_document_witness :
  canUse (host := sample_host) (Some (snapshot_of active_document))
    (Some "pipeline_execution")
  = Normal true
  /\ truthy_field (own_field active_document "is_valid") = true.
Proof.
  split; [reflexivity|].
  apply (@canUse_true_needs_valid_document sample_host active_document
           (snapshot_of active_document) (Some "pipeline_execution"));
    reflexivity.
Defined.

Lemma refresh_http_failure_witness :
  let s' := run empty_store
              (refreshLicenseStatus (host := sample_host)
                 (sample_fetch false 503 "{}")) in
  license s' = None
  /\ loading s' = false
  /\ (exists data : Json, error s' = Some (HttpError 503 data))
  /\ forall key : option string,
       canUse (host := sample_host) (license s') key = Normal false.
Proof.
  exact (@refresh_http_failure sample_host empty_store
           (sample_fetch false 503 "{}") _ eq_refl eq_refl).
Defined.

Lemma refresh_unparsable_body_witness :
  let s' := run empty_store
              (refreshLicenseStatus (host := sample_host)
                 (sample_fetch true 200 "<html>")) in
  license s'
  = Some (with_raw (snapshot_of (JObj [])) (J (JStr "<html>")))
  /\ error s' = None
  /\ loading s' = false
  /\ forall key : option string,
       canUse (host := sample_host) (license s') key = Normal false.
Proof.
  apply (@refresh_unparsable_body sample_host empty_store
           (sample_fetch true 200 "<html>") _ "<html>"
           eq_refl eq_refl eq_refl);
    [discriminate|reflexivity].
Defined.


Lemma demo_throws_iff_witness :
  normalizeLicenseStatus (host := sample_host) (J unprintable_document)
  = Normal (Some (snapshot_of unprintable_document))
  /\ GatingDemoView.FeatureGatingDemo (host := sample_host)
       (Some (snapshot_of unprintable_document))
     = Throw (TypeError "Cannot convert object to primitive value").
Proof.
  split; [reflexivity|].
  apply (proj1 (@demo_throws_iff sample_host unprintable_document
                  (snapshot_of unprintable_document)
                  (TypeError "Cannot convert object to primitive value")
                  eq_refl)).
  split; reflexivity.
Defined.

Lemma panel_details_children_witness :
  exists details : ContextStatusPanel.Details,
    ContextStatusPanel.details_element
      (ContextStatusPanel.LicenseStatusPanel
         {| license := Some (snapshot_of active_document);
            loading := false;
            error := None |})
    = ContextStatusPanel.DetailsElement details
    /\ ContextStatusPanel.badge details = JS.str "active"
    /\ ContextStatusPanel.customer details = ContextStatusPanel.dash
    /\ ContextStatusPanel.warnings_box details = None.
Proof.
  destruct (@panel_details_children sample_host
              {| license := Some (snapshot_of active_document);
                 loading := false;
                 error := None |}
              active_document (snapshot_of active_document)
              eq_refl eq_refl eq_refl eq_refl)
    as (details & Hshown & Hbadge & _ & Hcustomer & _ & _ & _ & _ & _
        & Hwarnings).
  exists details. repeat split; assumption.
Defined.

Lemma settle_writes_witness :
  JS.ToBoolean (J active_document) = true
  /\ run_phases (host := sample_host) empty_store
       [Begin; Begin; Settle (Throw (TransportError "Failed to fetch"));
        Settle (Normal active_document)]
     = {| license := Some (snapshot_of active_document);
          loading := false;
          error := Some (TransportError "Failed to fetch") |}.
Proof.
  split; [reflexivity|].
  apply (proj2 (proj2 (proj2 (proj2
           (@settle_writes sample_host empty_store
              (TransportError "Failed to fetch") active_document
              (Normal active_document)))))).
  reflexivity.
Defined.

Lemma standalone_failure_keeps_status_witness :
  let s' := fst (StandaloneStatusPanel.loadStatus true
                   (fun _ => Throw (TransportError "Failed to fetch"))
                   StandaloneStatusPanel.initial) in
  let view := StandaloneStatusPanel.LicenseStatusPanel s' in
  StandaloneStatusPanel.status s' = JNull
  /\ StandaloneStatusPanel.error s' = Some (TransportError "Failed to fetch")
  /\ StandaloneStatusPanel.loading s' = false
  /\ StandaloneStatusPanel.error_element view = Some "Failed to fetch"
  /\ StandaloneStatusPanel.data_slot view
     = StandaloneStatusPanel.Stopped (JBool false)
  /\ StandaloneStatusPanel.no_data_element view = false.
Proof.
  pose proof (@standalone_failure_keeps_status
                StandaloneStatusPanel.initial
                (fun _ => Throw (TransportError "Failed to fetch"))
                (TransportError "Failed to fetch") eq_refl) as H.
  vm_compute in H.
  destruct H as (_ & Hstatus & Herror & Hloading & _ & Hmessage & Hslot
                 & Hnotice).
  repeat split; assumption.
Defined.

Lemma standalone_success_stores_document_witness :
  let s' := fst (StandaloneStatusPanel.loadStatus true
                   (fun _ => Normal (JNum (S754_zero false)))
                   StandaloneStatusPanel.initial) in
  let view := StandaloneStatusPanel.LicenseStatusPanel s' in
  StandaloneStatusPanel.status s' = JNum (S754_zero false)
  /\ StandaloneStatusPanel.data_slot view
     = StandaloneStatusPanel.Stopped (JNum (S754_zero false))
  /\ StandaloneStatusPanel.no_data_element view = true.
Proof.
  pose proof (@standalone_success_stores_document
                StandaloneStatusPanel.initial
                (fun _ => Normal (JNum (S754_zero false)))
                (JNum (S754_zero false)) eq_refl) as H.
  vm_compute in H.
  destruct H as (_ & Hstate & _ & _ & Hslot & Hnotice).
  cbv zeta. split; [exact (f_equal StandaloneStatusPanel.status Hstate)|].
  split; [exact Hslot|exact Hnotice].
Defined.
